(** * Attendance verification and approval pipeline

    A shallow embedding of [backend/app/attendance_service.py] and of the
    face comparison of [backend/app/face_recognition_utils.py].

    Conventions of the embedding.
    - A Python [datetime] is the number of microseconds since the epoch
      (a [Z]); a [date] is a number of days since the epoch; a [time] is a
      number of microseconds since midnight.  [datetime.now()] and
      [date.today()] read the server's local clock, [datetime.utcnow()]
      the UTC clock: the two differ by the zone offset of the server.
    - The face comparison computes with IEEE binary64 numbers using only
      [+], [-], [*] and comparisons; it is embedded over Rocq's primitive
      binary64 floats, which compute bit for bit as Python's do.
    - The two haversine functions use [sin], [cos], [asin], [atan2] and
      [sqrt]; they are embedded over the real numbers, and so are the
      coordinates and distances that flow through the pipeline.
    - A result dictionary [{"success": ..., "error": ..., ...}] is a value
      of [outcome]; an exception that leaves a function is [Raise]. *)

From Stdlib Require Import ZArith List String Bool Lia DecimalString.
From Stdlib Require Import Reals Lra.
From Stdlib Require PrimFloat.
From Corelib Require FloatAxioms SpecFloat.
Import ListNotations.

Set Implicit Arguments.

(** ** Great-circle distance: the two haversine functions *)

Module Geo.

Local Open Scope R_scope.

(** [math.radians] *)
Definition radians (x : R) : R := x * (PI / 180).

(** [math.atan2 y x], by quadrant. *)
Definition atan2 (y x : R) : R :=
  if Rlt_dec 0 x then atan (y / x)
  else if Rlt_dec x 0 then
    (if Rle_dec 0 y then atan (y / x) + PI else atan (y / x) - PI)
  else if Rlt_dec 0 y then PI / 2
  else if Rlt_dec y 0 then - (PI / 2)
  else 0.

(** The haversine term [a] of [_calculate_distance], on arguments already
    converted to radians. *)
Definition hav_a_asin (lat1 lon1 lat2 lon2 : R) : R :=
  let dlat := lat2 - lat1 in
  let dlon := lon2 - lon1 in
  sin (dlat / 2) ^ 2 + cos lat1 * cos lat2 * sin (dlon / 2) ^ 2.

(** [AttendanceService._calculate_distance] (the [asin] form). *)
Definition _calculate_distance (lat1 lon1 lat2 lon2 : R) : R :=
  let lat1 := radians lat1 in
  let lon1 := radians lon1 in
  let lat2 := radians lat2 in
  let lon2 := radians lon2 in
  let a := hav_a_asin lat1 lon1 lat2 lon2 in
  let c := 2 * asin (sqrt a) in
  let r := 6371000 in
  c * r.

(** The haversine term [a] of [_haversine_distance], on arguments in
    degrees. *)
Definition hav_a_atan2 (lat1 lon1 lat2 lon2 : R) : R :=
  let phi1 := lat1 * PI / 180 in
  let phi2 := lat2 * PI / 180 in
  let delta_phi := (lat2 - lat1) * PI / 180 in
  let delta_lambda := (lon2 - lon1) * PI / 180 in
  sin (delta_phi / 2) * sin (delta_phi / 2) +
  cos phi1 * cos phi2 * sin (delta_lambda / 2) * sin (delta_lambda / 2).

(** [AttendanceService._haversine_distance] (the [atan2] form). *)
Definition _haversine_distance (lat1 lon1 lat2 lon2 : R) : R :=
  let R_earth := 6371000 in
  let a := hav_a_atan2 lat1 lon1 lat2 lon2 in
  let c := 2 * atan2 (sqrt a) (sqrt (1 - a)) in
  R_earth * c.

End Geo.

(** ** Fragments of the Python runtime the service relies on *)

Module Py.

Local Open Scope string_scope.

(** Exceptions that can leave a function of the service. *)
Inductive exn : Type :=
| NameError (name : string)
| TypeError (msg : string)
| AttributeError (msg : string).

(** [str(e)] *)
Definition str_exn (e : exn) : string :=
  match e with
  | NameError name => "name '" ++ name ++ "' is not defined"
  | TypeError msg => msg
  | AttributeError msg => msg
  end.

(** A failure dictionary: [{"success": False, "error": ..., "message": ...,
    "error_type": ...}].  The nested ["details"] entry is not embedded. *)
Record failure : Type := {
  error : string;
  message : option string;
  error_type : option string
}.

Inductive outcome (A : Type) : Type :=
| Ok (a : A)
| Fail (f : failure)
| Raise (e : exn).

Arguments Ok {A} a.
Arguments Fail {A} f.
Arguments Raise {A} e.

(** [r["success"]] *)
Definition succeeded {A} (r : outcome A) : bool :=
  match r with Ok _ => true | _ => false end.

(** The ["error"] entry of a failure dictionary. *)
Definition error_of {A} (r : outcome A) : option string :=
  match r with Fail f => Some (error f) | _ => None end.

(** Truth value of an [Optional[str]]: [None] and [""] are false. *)
Definition truthy_str (o : option string) : bool :=
  match o with
  | Some s => negb (s =? "")
  | None => false
  end.

(** Truth value of an [Optional[float]]: [None] and [0.0] are false. *)
Definition truthy_float (o : option R) : bool :=
  match o with
  | Some x => if Req_dec_T x 0 then false else true
  | None => false
  end.

(** [x < y] on reals, as a boolean. *)
Definition Rltb (x y : R) : bool := if Rlt_dec x y then true else false.

(** [int(x)]: truncation toward zero. *)
Definition int_of_float (x : R) : Z :=
  if Rle_dec 0 x then Int_part x else (- Int_part (- x))%Z.

(** [str(n)] for an integer. *)
Definition str_int (n : Z) : string :=
  DecimalString.NilZero.string_of_int (Z.to_int n).

(** A name bound in a scope, with the value it is bound to.  Only the values
    an expression of the embedding inspects are kept; the rest are opaque
    objects. *)
Inductive value : Type :=
| VNone
| VBool (b : bool)
| VStr (s : string)
| VList (len : nat)
| VObject (class_name : string).

Definition scope : Type := list (string * value).

(** Name resolution: local scope, then module globals, then builtins. *)
Definition load_name (locals globals builtins : scope) (x : string)
  : outcome value :=
  match find (fun b => fst b =? x) (locals ++ globals ++ builtins) with
  | Some b => Ok (snd b)
  | None => Raise (NameError x)
  end.

(** [len(v)] *)
Definition py_len (v : value) : outcome nat :=
  match v with
  | VList n => Ok n
  | VStr s => Ok (String.length s)
  | VNone => Raise (TypeError "object of type 'NoneType' has no len()")
  | VBool _ => Raise (TypeError "object of type 'bool' has no len()")
  | VObject c => Raise (TypeError ("object of type '" ++ c ++ "' has no len()"))
  end.

(** *** Calendar arithmetic *)

Definition MICROS_PER_MINUTE : Z := 60000000.
Definition MICROS_PER_DAY : Z := 86400000000.

(** [time(h, m)] as microseconds since midnight. *)
Definition time (h m : Z) : Z := (h * 3600 + m * 60) * 1000000.
Definition time_min : Z := 0.
(** [time.max] is 23:59:59.999999. *)
Definition time_max : Z := MICROS_PER_DAY - 1.

(** [datetime.combine(d, t)] *)
Definition combine (d t : Z) : Z := d * MICROS_PER_DAY + t.
(** [dt.date()] and [dt.time()] *)
Definition date_of (dt : Z) : Z := dt / MICROS_PER_DAY.
Definition time_of (dt : Z) : Z := dt mod MICROS_PER_DAY.
(** [timedelta(minutes=m)], [timedelta(days=d)] *)
Definition minutes (m : Z) : Z := m * MICROS_PER_MINUTE.
Definition days (d : Z) : Z := d * MICROS_PER_DAY.
(** [d.weekday()]: Monday is 0; day 0 of the epoch was a Thursday. *)
Definition weekday (d : Z) : Z := (d + 3) mod 7.

(** The server's clocks at one instant: UTC time and the offset of the
    local zone, both in microseconds. *)
Record Clock : Type := {
  utc_instant : Z;
  utc_offset : Z
}.

(** [datetime.utcnow()], [datetime.now()], [date.today()] *)
Definition utcnow (c : Clock) : Z := utc_instant c.
Definition now (c : Clock) : Z := utc_instant c + utc_offset c.
Definition today (c : Clock) : Z := date_of (now c).

End Py.

(** ** [face_recognition_utils.py]: image quality and face comparison *)

Module FaceRecognition.

Import PrimFloat.
Local Open Scope string_scope.
Local Open Scope float_scope.
Local Set Warnings "-inexact-float".

(** Python's [min(a, b)] and [max(a, b)] on numbers: the first argument is
    kept unless the second is strictly smaller (greater). *)
Definition py_min (a b : float) : float := if ltb b a then b else a.
Definition py_max (a b : float) : float := if ltb a b then b else a.

(** What [cv2] and [numpy] measured on an image, or the message of the
    exception they raised. *)
Record ImageMetrics : Type := {
  brightness : float;
  contrast : float;
  blur_score : float;
  height : Z;
  width : Z
}.

Record QualityAnalysis : Type := {
  quality_score : Z;
  issues : list string;
  acceptable : bool
}.

(** [detect_image_quality]; the rounded measurements echoed in the
    dictionary are not embedded. *)
Definition detect_image_quality (m : ImageMetrics + string) : QualityAnalysis :=
  match m with
  | inr e =>
      {| quality_score := 50;
         issues := ["Quality analysis failed: " ++ e];
         acceptable := true |}
  | inl m =>
      let min_size := 200%Z in
      let size_adequate := (min_size <=? Z.min (height m) (width m))%Z in
      let '(issues1, score1) :=
        if ltb (brightness m) 50 then (["Image too dark"], 100 - 20)%Z
        else if ltb 200 (brightness m) then (["Image too bright"], 100 - 15)%Z
        else ([], 100%Z) in
      let '(issues2, score2) :=
        if ltb (contrast m) 30 then ((issues1 ++ ["Low contrast"])%list, score1 - 15)%Z
        else (issues1, score1) in
      let '(issues3, score3) :=
        if ltb (blur_score m) 100
        then ((issues2 ++ ["Image appears blurry"])%list, score2 - 25)%Z
        else (issues2, score2) in
      let '(issues4, score4) :=
        if size_adequate then (issues3, score3)
        else ((issues3 ++ ["Image too small (minimum 200x200)"])%list, score3 - 30)%Z in
      {| quality_score := Z.max 0 score4;
         issues := issues4;
         acceptable := (60 <=? score4)%Z |}
  end.

(** The entries of [detect_liveness_indicators]'s dictionary that
    [compare_faces] reads. *)
Record LivenessAnalysis : Type := {
  overall_score : float;
  is_likely_live : bool;
  warnings : list string
}.

(** What the image libraries return, during one run of [compare_faces], for
    the two images it is given. *)
Record Scan : Type := {
  (** an exception raised inside the [try] block *)
  exception : option string;
  (** [decode_base64_image] returned an array, not [None] *)
  profile_decoded : bool;
  attendance_decoded : bool;
  quality_analysis : QualityAnalysis;
  liveness_analysis : LivenessAnalysis;
  (** the error component of [get_face_encoding] *)
  profile_error : option string;
  attendance_error : option string;
  (** [face_recognition.face_distance(...)[0]] *)
  face_distance : float
}.

(** The dictionary [compare_faces] returns; the echoed analyses are not
    embedded. *)
Record CompareResult : Type := {
  match_ : bool;
  confidence : float;
  raw_confidence : option float;
  result_message : string;
  reported_distance : option float;
  security_warnings : list string;
  confidence_modifier : option float
}.

Definition no_match (msg : string) (ws : list string) : CompareResult :=
  {| match_ := false; confidence := 0; raw_confidence := None;
     result_message := msg; reported_distance := None;
     security_warnings := ws; confidence_modifier := None |}.

(** [security_confidence_modifier] after the two discounts. *)
Definition security_confidence_modifier (s : Scan) : float :=
  let m := 1 in
  let m := if ltb (overall_score (liveness_analysis s)) 50 then m * 0.8 else m in
  let m := if (quality_score (quality_analysis s) <? 80)%Z then m * 0.9 else m in
  m.

(** [confidence]: the clamped inverse of the distance. *)
Definition distance_confidence (d : float) : float :=
  py_max 0 (py_min 100 ((1 - d) * 100)).

(** [adjusted_confidence] *)
Definition adjusted_confidence (s : Scan) : float :=
  distance_confidence (face_distance s) * security_confidence_modifier s.

(** [security_warnings] before the final check. *)
Definition liveness_warnings (s : Scan) : list string :=
  ((if is_likely_live (liveness_analysis s) then []
    else ["Possible photo spoofing detected"])
   ++ warnings (liveness_analysis s))%list.

(** The test of the final security check. *)
Definition too_many_warnings (s : Scan) : bool :=
  (2 <=? List.length (liveness_warnings s))%nat
  && ltb (adjusted_confidence s) 85.

(** [compare_faces(profile_image_base64, attendance_image_base64, tolerance)].
    [round] is Python's [round(x, ndigits)] on the run-time type of [x];
    [library_available] is the module's [FACE_RECOGNITION_AVAILABLE]. *)
Definition compare_faces (round : float -> Z -> float)
  (library_available : bool) (s : Scan) (tolerance : float) : CompareResult :=
  if negb library_available then
    no_match "Face recognition library not installed. Please install: pip install face-recognition opencv-python Pillow" []
  else
  match exception s with
  | Some e => no_match ("Face recognition error: " ++ e) ["Analysis failed: " ++ e]
  | None =>
  if negb (profile_decoded s) then no_match "Failed to decode profile image" []
  else if negb (attendance_decoded s) then
    no_match "Failed to decode attendance image" []
  else if negb (acceptable (quality_analysis s)) then
    no_match ("Image quality too low: "
              ++ String.concat ", " (issues (quality_analysis s))) []
  else
  let security_warnings := liveness_warnings s in
  if Py.truthy_str (profile_error s) then
    no_match ("Profile image error: "
              ++ match profile_error s with Some e => e | None => "" end) []
  else if Py.truthy_str (attendance_error s) then
    no_match ("Attendance image error: "
              ++ match attendance_error s with Some e => e | None => "" end) []
  else
  let match0 := leb (face_distance s) tolerance in
  let confidence := distance_confidence (face_distance s) in
  let modifier := security_confidence_modifier s in
  let adjusted := confidence * modifier in
  let '(match1, security_warnings) :=
    if (2 <=? List.length security_warnings)%nat && ltb adjusted 85
    then (false, (security_warnings ++ ["Multiple security concerns detected"])%list)
    else (match0, security_warnings) in
  let result_message :=
    if match1 && negb (Nat.eqb (List.length security_warnings) 0) then
      "Face matched successfully" ++ " (Security warnings: "
      ++ Py.str_int (Z.of_nat (List.length security_warnings)) ++ ")"
    else if negb match1 then "Face does not match profile"
    else "Face matched successfully" in
  {| match_ := match1;
     confidence := round adjusted 2%Z;
     raw_confidence := Some (round confidence 2%Z);
     result_message := result_message;
     reported_distance := Some (round (face_distance s) 4%Z);
     security_warnings := security_warnings;
     confidence_modifier := Some (round modifier 3%Z) |}
  end.

(** The run gets as far as comparing the two encodings: the library is
    installed, nothing raised, both images decoded, the quality is
    acceptable and each image yielded exactly one face. *)
Definition reaches_comparison (library_available : bool) (s : Scan) : bool :=
  library_available
  && match exception s with Some _ => false | None => true end
  && profile_decoded s
  && attendance_decoded s
  && acceptable (quality_analysis s)
  && negb (Py.truthy_str (profile_error s))
  && negb (Py.truthy_str (attendance_error s)).

End FaceRecognition.

(** ** [attendance_service.py]: the data the service reads and writes *)

Module Model.

Import Py.
Local Open Scope string_scope.
Local Open Scope Z_scope.

(** [models.User], [models.Employee], [models.Shift], [models.WFHRequest]:
    the columns the service reads. *)
Record User : Type := {
  user_id : Z;
  is_active : bool
}.

Record Employee : Type := {
  emp_id : Z;
  emp_user : option User
}.

Record Shift : Type := {
  shift_id : Z;
  shift_name : string
}.

Record WFHRequest : Type := {
  wfh_id : Z;
  wfh_employee_id : Z;
  request_date : Z;
  wfh_status : string
}.

(** A fraud indicator: [{"type": ..., "severity": ..., "details": ...}]. *)
Record FraudIndicator : Type := {
  ind_type : string;
  severity : string;
  details : string
}.

(** [models.Attendance], with the columns the later definitions of the
    service write and those [approve_attendance] stamps. *)
Record Attendance : Type := {
  att_id : Z;
  att_employee_id : Z;
  att_date : Z;
  att_status : string;
  check_in : option Z;
  att_latitude : option R;
  att_longitude : option R;
  photo_url : option string;
  location_address : string;
  verification_method : string;
  is_fraud_suspected : bool;
  att_work_mode : string;
  wfh_request_id : option Z;
  att_requires_approval : bool;
  approval_status : string;
  att_shift_id : option Z;
  att_face_match_confidence : option PrimFloat.float;
  flagged_reason : option string;
  approved_by : option Z;
  approved_at : option Z;
  approval_notes : option string
}.

(** What the notification service was asked to deliver. *)
Inductive Notification : Type :=
| InApp (to_user : Z) (title : string) (type : string)
| LateAttendanceFlagged (attendance_id : Z)
| FraudAlert (attendance_id : Z) (indicators : list FraudIndicator).

(** The session [self.db]: the tables, in insertion order, and the
    notifications handed to the notification service. *)
Record DB : Type := {
  employees : list Employee;
  attendances : list Attendance;
  wfh_requests : list WFHRequest;
  shifts : list Shift;
  outbox : list Notification
}.

(** The dictionary [security_service.validate_attendance_security] returns. *)
Record SecurityValidation : Type := {
  security_passed : bool;
  critical_issues : list string;
  sec_warnings : list FraudIndicator
}.

(** The collaborators of one service instance: the face libraries, the
    security service (module [app.security_service], not among the sources),
    the file system and the notification channel. *)
Record Env : Type := {
  (** [attendance_service.FACE_RECOGNITION_AVAILABLE]: the import of
      [app.face_recognition_utils] succeeded *)
  face_module_loaded : bool;
  (** [face_recognition_utils.FACE_RECOGNITION_AVAILABLE] *)
  face_library_available : bool;
  load_profile_image : Z -> option string;
  scan : string -> string -> FaceRecognition.Scan;
  (** Python's [round(x, ndigits)] and [str(x)] on floats *)
  round : PrimFloat.float -> Z -> PrimFloat.float;
  str_float : PrimFloat.float -> string;
  validate_attendance_security :
    DB -> Clock -> Z -> string -> option R -> option R -> option R ->
    SecurityValidation;
  (** [_save_attendance_photo]: the path written, [None] on an I/O error *)
  save_attendance_photo : string -> Z -> option string;
  (** the exception the notification channel raises, if it does *)
  notifier_error : option exn
}.

(** [self.OFFICE_COORDS], [self.MAX_DISTANCE] *)
Definition OFFICE_LAT : R := (174065 / 10000)%R.
Definition OFFICE_LON : R := (784772 / 10000)%R.
Definition OFFICE_NAME : string := "Dhanush Healthcare Pvt. Ltd.".
Definition OFFICE_ADDRESS : string := "Hyderabad, Telangana".
Definition MAX_DISTANCE : Z := 100.

(** An entry of [self.SHIFT_WINDOWS]. *)
Record ShiftConfig : Type := {
  start : Z;
  end_ : Z;
  grace : Z
}.

Definition SHIFT_WINDOWS : list (string * ShiftConfig) :=
  [ ("Morning Shift", {| start := time 8 0; end_ := time 11 0; grace := 15 |});
    ("Evening Shift", {| start := time 13 0; end_ := time 16 0; grace := 15 |});
    ("Night Shift", {| start := time 21 0; end_ := time 23 59; grace := 15 |}) ].

(** [d.get(key, default)] on a dictionary with string keys. *)
Definition dict_get {A} (d : list (string * A)) (key : string) (default : A) : A :=
  match find (fun kv => (fst kv =? key)%string) d with
  | Some kv => snd kv
  | None => default
  end.

(** [query(...).filter(...).first()] and [.count()] *)
Definition first {A} (p : A -> bool) (rows : list A) : option A := find p rows.
Definition count {A} (p : A -> bool) (rows : list A) : Z :=
  Z.of_nat (List.length (filter p rows)).

(** The approved work-from-home request of an employee for a day. *)
Definition approved_wfh (db : DB) (employee_id day : Z) : option WFHRequest :=
  first (fun w => (wfh_employee_id w =? employee_id)
                  && (request_date w =? day)
                  && (wfh_status w =? "approved")%string)
        (wfh_requests db).

(** The primary key the store gives the next attendance row. *)
Definition next_attendance_id (db : DB) : Z :=
  fold_right Z.max 0 (map att_id (attendances db)) + 1.

(** The row behind an ORM object is rewritten on [commit]. *)
Fixpoint update_first {A} (p : A -> bool) (f : A -> A) (rows : list A) : list A :=
  match rows with
  | [] => []
  | r :: rest => if p r then f r :: rest else r :: update_first p f rest
  end.

End Model.

(** ** [class AttendanceService]

    The class body defines [_perform_pre_checks], [_perform_verification],
    [_perform_validation] and [_create_attendance_record] twice.  A class
    body is executed top to bottom, so the later definition of each name is
    the method every call dispatches to; these are embedded here.  The
    earlier definition of [_create_attendance_record] is kept in
    [Superseded]. *)

Module AttendanceService.

Import PrimFloat.
Import Py Model.
Local Set Warnings "-inexact-float".
Local Open Scope string_scope.
Local Open Scope Z_scope.

(** [{"success": False, "error": e, "message": m, ...}] *)
Definition failed {A} (e m : string) : outcome A :=
  Fail {| error := e; message := Some m; error_type := None |}.

(** What a successful [_perform_pre_checks] returns. *)
Record PreChecks : Type := {
  employee : Employee;
  wfh_request : option WFHRequest;
  assigned_shift : option Shift
}.

(** [_get_employee_shift] *)
Definition _get_employee_shift (db : DB) (e : Employee) : option Shift :=
  first (fun s => (shift_name s =? "Morning Shift")%string) (shifts db).

(** The attendance row [_perform_pre_checks] looks for. *)
Definition existing_attendance (db : DB) (clk : Clock) (employee_id : Z)
  : option Attendance :=
  let today := today clk in
  first (fun a => (att_employee_id a =? employee_id)
                  && (combine today time_min <=? att_date a)
                  && (att_date a <? combine today time_max))
        (attendances db).

(** [_perform_pre_checks] *)
Definition _perform_pre_checks (db : DB) (clk : Clock) (employee_id : Z)
  : outcome PreChecks :=
  match first (fun e => emp_id e =? employee_id) (employees db) with
  | None => failed "employee_not_found" "Employee profile not found"
  | Some employee =>
      if negb (match emp_user employee with
               | Some u => is_active u
               | None => false
               end)
      then failed "employee_inactive" "Employee account is inactive"
      else
        match existing_attendance db clk employee_id with
        | Some _ => failed "already_marked" "Attendance already marked for today"
        | None =>
            Ok {| employee := employee;
                  wfh_request := approved_wfh db employee_id (today clk);
                  assigned_shift := _get_employee_shift db employee |}
        end
  end.

(** [_verify_face_recognition]: the confidence on success.  With the
    utilities module not imported, the attribute access on [None] raises
    inside the [try], which the handler turns into a failure. *)
Definition _verify_face_recognition (env : Env) (employee : Employee)
  (photo_base64 : string) : outcome PrimFloat.float :=
  if negb (face_module_loaded env) then
    failed "face_recognition_failed"
      ("Face recognition failed: " ++ str_exn (AttributeError
         "'NoneType' object has no attribute 'load_profile_image'"))
  else
    let profile_image := load_profile_image env (emp_id employee) in
    if negb (truthy_str profile_image) then
      failed "profile_image_missing"
        "Profile image not found. Please upload your profile image first"
    else
      let result :=
        FaceRecognition.compare_faces (round env) (face_library_available env)
          (scan env (match profile_image with Some p => p | None => "" end)
                photo_base64)
          0.6%float in
      if negb (FaceRecognition.match_ result) then
        failed "face_mismatch" "Face does not match profile image"
      else Ok (FaceRecognition.confidence result).

(** [_validate_gps_location]: the distance on success. *)
Definition _validate_gps_location (latitude longitude : option R) : outcome R :=
  if negb (truthy_float latitude) || negb (truthy_float longitude) then
    failed "location_required" "GPS location is required for office attendance"
  else
    match latitude, longitude with
    | Some lat, Some lon =>
        let distance := Geo._haversine_distance lat lon OFFICE_LAT OFFICE_LON in
        if Rltb (IZR MAX_DISTANCE) distance then
          failed "location_too_far"
            ("You are " ++ str_int (int_of_float distance)
             ++ "m away from office. Must be within "
             ++ str_int MAX_DISTANCE ++ "m of " ++ OFFICE_NAME)
        else Ok distance
    | _, _ =>
        failed "location_required"
          "GPS location is required for office attendance"
    end.

(** The dictionary [verification_data] of [_perform_verification]. *)
Record VerificationData : Type := {
  photo_captured : bool;
  face_recognition_used : bool;
  face_match_confidence : PrimFloat.float;
  gps_validated : bool;
  location_distance : option R;
  security_validation : option SecurityValidation;
  fraud_indicators : list FraudIndicator
}.

(** What a successful [_perform_verification] would return. *)
Record Verification : Type := {
  verification_data : VerificationData;
  ver_work_mode : string;
  fraud_score : nat
}.

(** Names bound at module level when a method runs, and the builtins the
    module uses (no builtin is called [fraud_indicators]). *)
Definition module_globals : scope :=
  map (fun n => (n, VObject "module-level"))
    [ "datetime"; "time"; "date"; "timedelta"; "Dict"; "Any"; "Optional";
      "Tuple"; "Session"; "models"; "get_notification_service";
      "get_security_service"; "math"; "base64"; "os"; "logging"; "logger";
      "face_recognition_utils"; "FACE_RECOGNITION_AVAILABLE";
      "AttendanceService"; "get_attendance_service" ].

Definition builtins : scope :=
  map (fun n => (n, VObject "builtin"))
    [ "len"; "int"; "map"; "open"; "str"; "Exception"; "ImportError" ].

(** The local names [_perform_verification] has bound when it reaches its
    last [return]. *)
Definition _perform_verification_locals (photo_base64 work_mode : string)
  (use_face_recognition : bool) : scope :=
  ([ ("self", VObject "AttendanceService");
     ("employee", VObject "Employee");
     ("photo_base64", VStr photo_base64);
     ("latitude", VObject "float");
     ("longitude", VObject "float");
     ("use_face_recognition", VBool use_face_recognition);
     ("verification_data", VObject "dict") ]
   ++ (if use_face_recognition then [("face_result", VObject "dict")] else [])
   ++ [ ("wfh_request", VObject "WFHRequest");
        ("work_mode", VStr work_mode) ]
   ++ (if (work_mode =? "office")%string
       then [("gps_result", VObject "dict")] else [])
   ++ [ ("security_validation", VObject "dict") ])%list.

(** [_perform_verification] *)
Definition _perform_verification (env : Env) (db : DB) (clk : Clock)
  (employee : Employee) (photo_base64 : option string)
  (latitude longitude : option R) (use_face_recognition : bool)
  : outcome Verification :=
  (* Verification 1: photo capture *)
  if negb (truthy_str photo_base64) then
    failed "photo_required" "Photo is required for attendance verification"
  else
  let photo := match photo_base64 with Some p => p | None => "" end in
  (* Verification 2: face recognition *)
  match (if use_face_recognition
         then _verify_face_recognition env employee photo
         else Ok 0%float) with
  | Fail f => Fail f
  | Raise e => Raise e
  | Ok confidence =>
  (* Verification 3: GPS validation (office mode only) *)
  let wfh_request := approved_wfh db (emp_id employee) (today clk) in
  let work_mode := match wfh_request with Some _ => "wfh" | None => "office" end in
  match (if (work_mode =? "office")%string
         then match _validate_gps_location latitude longitude with
              | Ok d => Ok (true, Some d)
              | Fail f => Fail f
              | Raise e => Raise e
              end
         else Ok (false, None)) with
  | Fail f => Fail f
  | Raise e => Raise e
  | Ok (gps_validated, location_distance) =>
  (* Verification 4: comprehensive security validation *)
  let security :=
    validate_attendance_security env db clk (emp_id employee) photo
      latitude longitude location_distance in
  let verification_data :=
    {| photo_captured := true;
       face_recognition_used := use_face_recognition;
       face_match_confidence := confidence;
       gps_validated := gps_validated;
       location_distance := location_distance;
       security_validation := Some security;
       fraud_indicators := sec_warnings security |} in
  if negb (security_passed security) then
    failed "security_validation_failed"
      ("Security validation failed: "
       ++ String.concat ", " (critical_issues security))
  else
    (* the returned dictionary: its last entry is [len(fraud_indicators)] *)
    match load_name
            (_perform_verification_locals photo work_mode use_face_recognition)
            module_globals builtins "fraud_indicators" with
    | Fail f => Fail f
    | Raise e => Raise e
    | Ok v =>
        match py_len v with
        | Fail f => Fail f
        | Raise e => Raise e
        | Ok n => Ok {| verification_data := verification_data;
                        ver_work_mode := work_mode;
                        fraud_score := n |}
        end
    end
  end
  end.

(** [self.db.query(models.Attendance)...count()] of check 3: the rows of the
    employee dated in the last five minutes of the local clock. *)
Definition recent_attempts (db : DB) (clk : Clock) (employee_id : Z) : Z :=
  count (fun a => (att_employee_id a =? employee_id)
                  && (now clk - minutes 5 <=? att_date a))
        (attendances db).

(** [l[-3:]] *)
Definition last3 {A} (l : list A) : list A := skipn (List.length l - 3) l.

(** The distance check 2 reports: that of the first of the last three rows
    of the week which has a position and lies more than 1000 m away. *)
Definition location_anomaly (db : DB) (clk : Clock) (employee_id : Z)
  (latitude longitude : option R) : option R :=
  let recent_attendance :=
    filter (fun a => (att_employee_id a =? employee_id)
                     && (now clk - days 7 <=? att_date a))
           (attendances db) in
  match latitude, longitude with
  | Some lat, Some lon =>
      if truthy_float latitude && truthy_float longitude then
        match find (fun a =>
                      match att_latitude a, att_longitude a with
                      | Some alat, Some alon =>
                          truthy_float (att_latitude a)
                          && truthy_float (att_longitude a)
                          && Rltb 1000 (Geo._haversine_distance lat lon alat alon)
                      | _, _ => false
                      end)
                   (last3 recent_attendance) with
        | Some a =>
            match att_latitude a, att_longitude a with
            | Some alat, Some alon =>
                Some (Geo._haversine_distance lat lon alat alon)
            | _, _ => None
            end
        | None => None
        end
      else None
  | _, _ => None
  end.

(** [_detect_fraud_indicators].  No method of the class calls it. *)
Definition _detect_fraud_indicators (env : Env) (db : DB) (clk : Clock)
  (employee : Employee) (photo_base64 : string)
  (latitude longitude : option R) (verification_data : VerificationData)
  : list FraudIndicator :=
  (* Check 1: low face recognition confidence *)
  ((if ltb (face_match_confidence verification_data) 70 then
      [ {| ind_type := "low_face_confidence"; severity := "medium";
           details := "Face confidence "
             ++ str_float env (face_match_confidence verification_data)
             ++ "% below threshold" |} ]
    else [])
  (* Check 2: unusual location pattern *)
  ++ match location_anomaly db clk (emp_id employee) latitude longitude with
     | Some distance =>
         [ {| ind_type := "location_anomaly"; severity := "low";
              details := "Location differs by "
                ++ str_int (int_of_float distance)
                ++ "m from recent attendance" |} ]
     | None => []
     end
  (* Check 3: rapid successive attempts *)
  ++ (if 0 <? recent_attempts db clk (emp_id employee) then
        [ {| ind_type := "rapid_attempts"; severity := "high";
             details := "Multiple attendance attempts within 5 minutes" |} ]
      else [])
  (* Check 4: weekend attendance without approval *)
  ++ (if 5 <=? weekday (today clk) then
        match approved_wfh db (emp_id employee) (today clk) with
        | Some _ => []
        | None =>
            [ {| ind_type := "weekend_attendance"; severity := "medium";
                 details := "Attendance on weekend without special approval" |} ]
        end
      else []))%list.

(** [_calculate_late_minutes].  The source divides the seconds by 60 in
    floating point and truncates; on differences of less than a day, at
    microsecond resolution, that is the integer quotient. *)
Definition _calculate_late_minutes (current_time expected_time : Z) : Z :=
  if expected_time <? current_time
  then (current_time - expected_time) / MICROS_PER_MINUTE
  else 0.

(** The dictionary [validation_data] of [_perform_validation]. *)
Record ValidationData : Type := {
  within_time_window : bool;
  requires_approval : bool;
  attendance_status : string;
  work_mode : string;
  late_minutes : Z;
  shift_window : option ShiftConfig
}.

(** The fallback of [self.SHIFT_WINDOWS.get(assigned_shift.name, ...)]. *)
Definition FALLBACK_WINDOW : ShiftConfig :=
  {| start := time 9 0; end_ := time 11 0; grace := 15 |}.

(** Validation 1 of [_perform_validation]: the classification of the time of
    day against the shift window, as (within_time_window, requires_approval,
    attendance_status, late_minutes). *)
Definition time_window_check (today current_time : Z)
  (shift_config : option ShiftConfig) : bool * bool * string * Z :=
  match shift_config with
  | Some cfg =>
      if (start cfg <=? current_time) && (current_time <=? end_ cfg) then
        (true, false, "present", 0)
      else
        let grace_end := time_of (combine today (end_ cfg) + minutes (grace cfg)) in
        if current_time <=? grace_end then
          (true, false, "present",
           _calculate_late_minutes current_time (end_ cfg))
        else
          (false, true, "late",
           _calculate_late_minutes current_time (end_ cfg))
  | None =>
      let default_start := time 9 0 in
      let default_end := time 11 0 in
      if (default_start <=? current_time) && (current_time <=? default_end) then
        (true, false, "present", 0)
      else
        (false, true, "late", _calculate_late_minutes current_time default_end)
  end.

(** [_perform_validation] *)
Definition _perform_validation (clk : Clock) (employee : Employee)
  (assigned_shift : option Shift) (wfh_request : option WFHRequest)
  (latitude longitude : option R) : outcome ValidationData :=
  let work_mode := match wfh_request with Some _ => "wfh" | None => "office" end in
  (* Validation 1: time window check *)
  let current_time := time_of (now clk) in
  let shift_config :=
    match assigned_shift with
    | Some s => Some (dict_get SHIFT_WINDOWS (shift_name s) FALLBACK_WINDOW)
    | None => None
    end in
  let '(within, approval, status, late) :=
    time_window_check (today clk) current_time shift_config in
  (* Validation 2: work mode validation *)
  if (work_mode =? "office")%string
     && (negb (truthy_float latitude) || negb (truthy_float longitude))
  then failed "location_required_office"
         "GPS location is required for office attendance"
  else Ok {| within_time_window := within;
             requires_approval := approval;
             attendance_status := status;
             work_mode := work_mode;
             late_minutes := late;
             shift_window := shift_config |}.

(** [_create_attendance_record]: the row added and the session after it.
    The two readings of [datetime.utcnow()] are taken at one instant.  A
    notification that raises does so after the commit: the handler's
    rollback finds nothing to undo. *)
Definition _create_attendance_record (env : Env) (db : DB) (clk : Clock)
  (employee : Employee) (wfh_request : option WFHRequest)
  (assigned_shift : option Shift) (photo_base64 : option string)
  (latitude longitude : option R)
  (verification_data : VerificationData) (validation_data : ValidationData)
  : outcome Attendance * DB :=
  let photo_url :=
    match photo_base64 with
    | Some p => if truthy_str photo_base64
                then save_attendance_photo env p (emp_id employee) else None
    | None => None
    end in
  let location_address :=
    if (work_mode validation_data =? "wfh")%string
    then "Work From Home" else OFFICE_ADDRESS in
  let indicators := fraud_indicators verification_data in
  let attendance :=
    {| att_id := next_attendance_id db;
       att_employee_id := emp_id employee;
       att_date := utcnow clk;
       att_status := attendance_status validation_data;
       check_in := Some (utcnow clk);
       att_latitude := latitude;
       att_longitude := longitude;
       photo_url := photo_url;
       location_address := location_address;
       verification_method :=
         if face_recognition_used verification_data
         then "face_recognition" else "photo";
       is_fraud_suspected := (0 <? List.length indicators)%nat;
       att_work_mode := work_mode validation_data;
       wfh_request_id := option_map wfh_id wfh_request;
       att_requires_approval := requires_approval validation_data;
       approval_status :=
         if negb (requires_approval validation_data)
         then "auto_approved" else "pending";
       att_shift_id := option_map shift_id assigned_shift;
       att_face_match_confidence :=
         Some (face_match_confidence verification_data);
       flagged_reason :=
         match indicators with
         | [] => None
         | _ => Some (String.concat "; " (map details indicators))
         end;
       approved_by := None;
       approved_at := None;
       approval_notes := None |} in
  let add_row (d : DB) :=
    {| employees := employees d;
       attendances := (attendances d ++ [attendance])%list;
       wfh_requests := wfh_requests d;
       shifts := shifts d;
       outbox := outbox d |} in
  let post (d : DB) (n : Notification) :=
    {| employees := employees d;
       attendances := attendances d;
       wfh_requests := wfh_requests d;
       shifts := shifts d;
       outbox := (outbox d ++ [n])%list |} in
  let creation_failed (e : exn) : outcome Attendance :=
    failed "record_creation_failed"
      ("Failed to create attendance record: " ++ str_exn e) in
  let db1 := add_row db in
  let needs_notice :=
    requires_approval validation_data || (0 <? List.length indicators)%nat in
  match notifier_error env with
  | Some e =>
      if needs_notice then (creation_failed e, db1) else (Ok attendance, db1)
  | None =>
      let db2 :=
        if requires_approval validation_data
        then post db1 (LateAttendanceFlagged (att_id attendance)) else db1 in
      let db3 :=
        if (0 <? List.length indicators)%nat
        then post db2 (FraudAlert (att_id attendance) indicators) else db2 in
      (Ok attendance, db3)
  end.

(** The parameters of the [_create_attendance_record] in force, after
    [self]. *)
Definition _create_attendance_record_params : list string :=
  [ "employee"; "wfh_request"; "assigned_shift"; "photo_base64"; "latitude";
    "longitude"; "verification_data"; "validation_data" ].

(** The names of the missing arguments as a [TypeError] lists them. *)
Definition quoted_names (names : list string) : string :=
  let q := fun n => "'" ++ n ++ "'" in
  match names with
  | [] => ""
  | [a] => q a
  | [a; b] => q a ++ " and " ++ q b
  | _ => String.concat ", " (map q (removelast names))
         ++ ", and " ++ q (last names "")
  end.

(** The call [self._create_attendance_record(employee, assigned_shift,
    wfh_request, verification_result, validation_result)] of
    [mark_attendance_comprehensive]: its positional arguments are fewer than
    the parameters of the method in force, so binding them raises
    [TypeError] before the body runs. *)
Definition record_creation_call (args : list string) : option exn :=
  let missing := skipn (List.length args) _create_attendance_record_params in
  match missing with
  | [] => None
  | _ =>
      Some (TypeError
        ("AttendanceService._create_attendance_record() missing "
         ++ str_int (Z.of_nat (List.length missing))
         ++ " required positional argument"
         ++ (if Nat.eqb (List.length missing) 1 then "" else "s") ++ ": "
         ++ quoted_names missing))
  end.

(** The [except Exception] handler of [mark_attendance_comprehensive]. *)
Definition system_error {A} (e : exn) : outcome A :=
  Fail {| error := "System error: " ++ str_exn e;
          message := None;
          error_type := Some "system_error" |}.

(** [mark_attendance_comprehensive]: the result and the session after the
    call. *)
Definition mark_attendance_comprehensive (env : Env) (db : DB) (clk : Clock)
  (employee_id : Z) (photo_base64 : option string)
  (latitude longitude : option R) (use_face_recognition : bool)
  : outcome Attendance * DB :=
  (* Step 1: pre-checks *)
  match _perform_pre_checks db clk employee_id with
  | Fail f => (Fail f, db)
  | Raise e => (system_error e, db)
  | Ok pre =>
  (* Step 2: verification *)
  match _perform_verification env db clk (employee pre) photo_base64
          latitude longitude use_face_recognition with
  | Fail f => (Fail f, db)
  | Raise e => (system_error e, db)
  | Ok verification_result =>
  (* Step 3: validation *)
  match _perform_validation clk (employee pre) (assigned_shift pre)
          (wfh_request pre) latitude longitude with
  | Fail f => (Fail f, db)
  | Raise e => (system_error e, db)
  | Ok validation_result =>
  (* Step 4: record creation, called with five positional arguments *)
  match record_creation_call
          [ "employee"; "assigned_shift"; "wfh_request";
            "verification_result"; "validation_result" ] with
  | Some e => (system_error e, db)
  | None =>
      match _create_attendance_record env db clk (employee pre)
              (wfh_request pre) (assigned_shift pre) photo_base64
              latitude longitude
              (verification_data verification_result) validation_result with
      | (Raise e, db') => (system_error e, db')
      | r => r
      end
  end
  end
  end
  end.

(** The columns [approve_attendance] writes. *)
Definition approved_row (approver : Z) (at_ : Z) (notes : option string)
  (a : Attendance) : Attendance :=
  {| att_id := att_id a;
     att_employee_id := att_employee_id a;
     att_date := att_date a;
     att_status :=
       if (att_status a =? "late")%string then "present_late"
       else if (att_status a =? "remote_unverified")%string then "remote_approved"
       else if (att_status a =? "identity_unverified")%string then "present_approved"
       else att_status a;
     check_in := check_in a;
     att_latitude := att_latitude a;
     att_longitude := att_longitude a;
     photo_url := photo_url a;
     location_address := location_address a;
     verification_method := verification_method a;
     is_fraud_suspected := is_fraud_suspected a;
     att_work_mode := att_work_mode a;
     wfh_request_id := wfh_request_id a;
     att_requires_approval := false;
     approval_status := approval_status a;
     att_shift_id := att_shift_id a;
     att_face_match_confidence := att_face_match_confidence a;
     flagged_reason := flagged_reason a;
     approved_by := Some approver;
     approved_at := Some at_;
     approval_notes := notes |}.

(** [approve_attendance]: the ["new_status"] entry on success, and the
    session after the call.  [create_notification] handles its own
    exceptions. *)
Definition approve_attendance (db : DB) (clk : Clock) (attendance_id : Z)
  (approved_by : Z) (notes : option string) : outcome string * DB :=
  match first (fun a => att_id a =? attendance_id) (attendances db) with
  | None =>
      (Fail {| error := "Attendance record not found";
               message := None; error_type := None |}, db)
  | Some attendance =>
      if negb (att_requires_approval attendance) then
        (Fail {| error := "Attendance does not require approval";
                 message := None; error_type := None |}, db)
      else
        let updated := approved_row approved_by (utcnow clk) notes attendance in
        let rows :=
          update_first (fun a => att_id a =? attendance_id)
            (approved_row approved_by (utcnow clk) notes) (attendances db) in
        let notice :=
          match first (fun e => emp_id e =? att_employee_id updated)
                  (employees db) with
          | Some e =>
              match emp_user e with
              | Some u => [InApp (user_id u) "Attendance Approved"
                             "attendance_approved"]
              | None => []
              end
          | None => []
          end in
        (Ok (att_status updated),
         {| employees := employees db;
            attendances := rows;
            wfh_requests := wfh_requests db;
            shifts := shifts db;
            outbox := (outbox db ++ notice)%list |})
  end.

End AttendanceService.

(** ** The earlier definition of [_create_attendance_record]

    Rebound by the later definition before any instance exists; it is kept
    for the status precedence it spells out. *)

Module Superseded.

Import PrimFloat.
Import Py Model.
Local Open Scope string_scope.
Local Set Warnings "-inexact-float".

(** The dictionaries the earlier [_perform_verification] and
    [_perform_validation] build. *)
Record VerificationData : Type := {
  face_verified : bool;
  face_confidence : float;
  location_verified : bool;
  distance_from_office : option R
}.

Record ValidationData : Type := {
  time_window_valid : bool;
  location_required : bool;
  shift_name : string;
  grace_period_used : bool
}.

(** The columns the earlier definition writes. *)
Record Row : Type := {
  employee_id : Z;
  date : Z;
  check_in_time : Z;
  status : string;
  row_distance_from_office : option R;
  row_face_confidence : float;
  is_wfh : bool;
  requires_approval : bool;
  row_shift_name : string;
  row_grace_period_used : bool
}.

(** "Determine attendance status": three tests in sequence, each
    overwriting the status of the one before. *)
Definition determine_status (verification_data : VerificationData)
  (validation_data : ValidationData) : string * bool :=
  let status := "present" in
  let requires_approval := false in
  let '(status, requires_approval) :=
    if negb (time_window_valid validation_data)
    then ("late", true) else (status, requires_approval) in
  let '(status, requires_approval) :=
    if location_required validation_data
       && negb (location_verified verification_data)
    then ("remote_unverified", true) else (status, requires_approval) in
  let '(status, requires_approval) :=
    if negb (face_verified verification_data)
       && ltb (face_confidence verification_data) 0.7
    then ("identity_unverified", true) else (status, requires_approval) in
  (status, requires_approval).

(** [_create_attendance_record] (earlier definition): the row it builds. *)
Definition _create_attendance_record (clk : Clock) (employee : Employee)
  (assigned_shift : option Shift) (wfh_request : option WFHRequest)
  (verification_data : VerificationData) (validation_data : ValidationData)
  : Row :=
  let '(status, requires_approval) :=
    determine_status verification_data validation_data in
  {| employee_id := emp_id employee;
     date := today clk;
     check_in_time := time_of (now clk);
     status := status;
     row_distance_from_office := distance_from_office verification_data;
     row_face_confidence := face_confidence verification_data;
     is_wfh := match wfh_request with Some _ => true | None => false end;
     requires_approval := requires_approval;
     row_shift_name := shift_name validation_data;
     row_grace_period_used := grace_period_used validation_data |}.

End Superseded.

(** ** The security service, as far as the specification fixes it *)

Module SecurityServiceSpec.

Import Py Model AttendanceService.
Local Open Scope string_scope.
Local Open Scope Z_scope.

(** Modelled from the spec: [app.security_service] is missing from the
    sources.  The specification makes rapid repeat attempts (more than zero
    attendance attempts by the employee within the last five minutes) a hard
    block of the security validation. *)
Definition hard_blocks_rapid_repeat (env : Env) : Prop :=
  forall db clk employee_id photo latitude longitude distance,
    0 < recent_attempts db clk employee_id ->
    security_passed
      (validate_attendance_security env db clk employee_id photo
         latitude longitude distance) = false.

(** Modelled from the spec: a security service whose only critical issue is
    the rapid repeat of the specification's fraud heuristics. *)
Definition rapid_repeat_service (db : DB) (clk : Clock) (employee_id : Z)
  (photo : string) (latitude longitude distance : option R)
  : SecurityValidation :=
  let rapid := 0 <? recent_attempts db clk employee_id in
  {| security_passed := negb rapid;
     critical_issues :=
       if rapid then ["Multiple attendance attempts within 5 minutes"] else [];
     sec_warnings := [] |}.

End SecurityServiceSpec.


(** ** Scenarios the properties are stated on *)

Module Scenario.

Import Py Model AttendanceService.
Local Open Scope string_scope.
Local Open Scope Z_scope.

(** One submission as the idempotency gate sees it: the pre-checks of
    [mark_attendance_comprehensive], then the record creation in force, with
    the verification and validation dictionaries of the stages in between
    taken as given. *)
Definition gated_record_creation (env : Env) (db : DB) (clk : Clock)
  (employee_id : Z) (photo_base64 : option string)
  (latitude longitude : option R)
  (verification_data : VerificationData) (validation_data : ValidationData)
  : outcome Attendance * DB :=
  match _perform_pre_checks db clk employee_id with
  | Fail f => (Fail f, db)
  | Raise e => (Raise e, db)
  | Ok pre =>
      _create_attendance_record env db clk (employee pre) (wfh_request pre)
        (assigned_shift pre) photo_base64 latitude longitude
        verification_data validation_data
  end.

(** The checks of the verification stage that come before the security
    validation pass: a photo is present, the face matches when face
    recognition is used, and the position is within range when no
    work-from-home approval waives it.  [distance] is the distance handed on
    to the security validation. *)
Definition earlier_checks_pass (env : Env) (db : DB) (clk : Clock)
  (employee : Employee) (photo_base64 : option string)
  (latitude longitude : option R) (use_face_recognition : bool)
  (photo : string) (distance : option R) : Prop :=
  photo_base64 = Some photo
  /\ truthy_str photo_base64 = true
  /\ (use_face_recognition = true ->
      exists confidence,
        _verify_face_recognition env employee photo = Ok confidence)
  /\ match approved_wfh db (emp_id employee) (today clk) with
     | Some _ => distance = None
     | None =>
         exists d, _validate_gps_location latitude longitude = Ok d
                   /\ distance = Some d
     end.

(** Every sub-check of the verification stage passes, the security
    validation included. *)
Definition sub_checks_pass (env : Env) (db : DB) (clk : Clock)
  (employee : Employee) (photo_base64 : option string)
  (latitude longitude : option R) (use_face_recognition : bool) : Prop :=
  exists photo distance,
    earlier_checks_pass env db clk employee photo_base64 latitude longitude
      use_face_recognition photo distance
    /\ security_passed
         (validate_attendance_security env db clk (emp_id employee) photo
            latitude longitude distance) = true.

(** The scan [_verify_face_recognition] hands to [compare_faces]. *)
Definition scan_of (env : Env) (employee : Employee) (photo : string)
  : FaceRecognition.Scan :=
  scan env
    (match load_profile_image env (emp_id employee) with
     | Some p => p
     | None => ""
     end)
    photo.

(** The status of an attendance row with a given key, if the row exists. *)
Definition row (db : DB) (attendance_id : Z) : option Attendance :=
  first (fun a => att_id a =? attendance_id) (attendances db).

End Scenario.

(** ** Concrete sessions, clocks and collaborators *)

Module Fixtures.

Import PrimFloat.
Import Py Model FaceRecognition AttendanceService.
Local Open Scope string_scope.
Local Open Scope Z_scope.
Local Set Warnings "-inexact-float".

Definition good_quality : QualityAnalysis :=
  {| quality_score := 100; issues := []; acceptable := true |}.

Definition lively : LivenessAnalysis :=
  {| overall_score := 80; is_likely_live := true; warnings := [] |}.

(** What [detect_liveness_indicators] returns for an overall score of 25. *)
Definition flat_texture : LivenessAnalysis :=
  {| overall_score := 25; is_likely_live := false;
     warnings := ["Low texture variation - possible photo"] |}.

Definition scan_at (liveness : LivenessAnalysis) (d : float) : Scan :=
  {| exception := None;
     profile_decoded := true;
     attendance_decoded := true;
     quality_analysis := good_quality;
     liveness_analysis := liveness;
     profile_error := None;
     attendance_error := None;
     face_distance := d |}.

Definition passing_service (db : DB) (clk : Clock) (employee_id : Z)
  (photo : string) (latitude longitude distance : option R)
  : SecurityValidation :=
  {| security_passed := true; critical_issues := []; sec_warnings := [] |}.

(** A service instance whose face libraries answer every comparison with
    the scan [s].  The fixtures' confidences have at most two decimals, on
    which [round(x, 2)] is the identity. *)
Definition env_with (s : Scan)
  (service : DB -> Clock -> Z -> string -> option R -> option R -> option R
             -> SecurityValidation) : Env :=
  {| face_module_loaded := true;
     face_library_available := true;
     load_profile_image := fun _ => Some "profile.jpg";
     scan := fun _ _ => s;
     round := fun x _ => x;
     str_float := fun _ => "50.0";
     validate_attendance_security := service;
     save_attendance_photo :=
       fun _ _ => Some "uploads/attendance_photos/emp_1.jpg";
     notifier_error := None |}.

Definition env0 : Env := env_with (scan_at lively 0.25) passing_service.

Definition alice : Employee :=
  {| emp_id := 1; emp_user := Some {| user_id := 10; is_active := true |} |}.

Definition morning : Shift := {| shift_id := 1; shift_name := "Morning Shift" |}.

Definition db0 : DB :=
  {| employees := [alice];
     attendances := [];
     wfh_requests := [];
     shifts := [morning];
     outbox := [] |}.

(** Day 20000 of the epoch is Friday 4 October 2024. *)
Definition day0 : Z := 20000.


(** A clock showing [h:m] local time on local day [d], for a zone offset. *)
Definition clock_at (offset d h m : Z) : Clock :=
  {| utc_instant := combine d (time h m) - offset; utc_offset := offset |}.

(** A work-from-home approval for [alice] on a day. *)
Definition wfh_on (d : Z) : WFHRequest :=
  {| wfh_id := 7; wfh_employee_id := 1; request_date := d;
     wfh_status := "approved" |}.

Definition db_wfh (d : Z) : DB :=
  {| employees := [alice];
     attendances := [];
     wfh_requests := [wfh_on d];
     shifts := [morning];
     outbox := [] |}.

(** Dictionaries of a verification and a validation that raised nothing. *)
Definition plain_verification : VerificationData :=
  {| photo_captured := true;
     face_recognition_used := true;
     face_match_confidence := 75;
     gps_validated := false;
     location_distance := None;
     security_validation := None;
     fraud_indicators := [] |}.

Definition validation_with (mode status : string) (approval : bool)
  : ValidationData :=
  {| within_time_window := negb approval;
     requires_approval := approval;
     attendance_status := status;
     work_mode := mode;
     late_minutes := 0;
     shift_window := None |}.

(** A row of [alice] that awaits approval, and a session holding it. *)
Definition pending_row (key : Z) (status : string) : Attendance :=
  {| att_id := key;
     att_employee_id := 1;
     att_date := combine day0 (time 11 40);
     att_status := status;
     check_in := Some (combine day0 (time 11 40));
     att_latitude := None;
     att_longitude := None;
     photo_url := None;
     location_address := "Work From Home";
     verification_method := "photo";
     is_fraud_suspected := false;
     att_work_mode := "wfh";
     wfh_request_id := Some 7;
     att_requires_approval := true;
     approval_status := "pending";
     att_shift_id := Some 1;
     att_face_match_confidence := None;
     flagged_reason := None;
     approved_by := None;
     approved_at := None;
     approval_notes := None |}.

Definition db_pending : DB :=
  {| employees := [alice];
     attendances := [pending_row 1 "late"];
     wfh_requests := [];
     shifts := [morning];
     outbox := [] |}.


End Fixtures.

(** ** Further sessions *)

Module MoreFixtures.

Import Py Model AttendanceService Scenario Fixtures.
Local Open Scope string_scope.
Local Open Scope Z_scope.

(** The account of [alice] disabled, and a row of hers for the day. *)
Definition disabled_alice : Employee :=
  {| emp_id := 1;
     emp_user := Some {| user_id := 10; is_active := false |} |}.

Definition db_disabled : DB :=
  {| employees := [disabled_alice];
     attendances := [pending_row 1 "late"];
     wfh_requests := [];
     shifts := [morning];
     outbox := [] |}.

(** The row [_create_attendance_record] writes, whatever it then reports. *)
Definition created (env : Env) (db : DB) (clk : Clock) (e : Employee)
  (w : option WFHRequest) (s : option Shift) (photo : option string)
  (latitude longitude : option R)
  (vd : VerificationData) (val : ValidationData) : option Attendance :=
  row (snd (_create_attendance_record env db clk e w s photo latitude
              longitude vd val))
      (next_attendance_id db).

(** The validation dictionary of an office check-in at 09:30 under the
    morning shift. *)
Definition morning_office_validation : ValidationData :=
  {| within_time_window := true;
     requires_approval := false;
     attendance_status := "present";
     work_mode := "office";
     late_minutes := 0;
     shift_window := Some {| start := time 8 0; end_ := time 11 0;
                             grace := 15 |} |}.

End MoreFixtures.

(** ** [face_recognition_utils.py]: liveness analysis and [verify_face] *)

Module FaceUtils.

Import PrimFloat.
Import FaceRecognition.
Local Open Scope string_scope.
Local Open Scope float_scope.
Local Set Warnings "-inexact-float".

(** What [cv2] and [numpy] measured for the liveness analysis: the variance
    of the Laplacian, the share of edge pixels, and the mean per-channel
    standard deviation of a colour image ([None] for a grey one). *)
Record LivenessMeasures : Type := {
  texture_score : float;
  edge_share : float;
  color_variation : option float
}.

(** [detect_liveness_indicators], as the entries [compare_faces] reads;
    [inr e] stands for an exception raised by the measurements. *)
Definition detect_liveness_indicators (round : float -> Z -> float)
  (m : LivenessMeasures + string) : LivenessAnalysis :=
  match m with
  | inr e =>
      {| overall_score := 50;
         is_likely_live := true;
         warnings := ["Liveness analysis failed: " ++ e] |}
  | inl m =>
      let texture_analysis := py_min 100 (texture_score m / 10) in
      let edge_density := py_min 100 (edge_share m * 1000) in
      let color_distribution :=
        match color_variation m with
        | Some c => py_min 100 (c * 2)
        | None => 50
        end in
      let overall_score :=
        texture_analysis * 0.4 + edge_density * 0.3
        + color_distribution * 0.3 in
      {| overall_score := round overall_score 2%Z;
         is_likely_live := negb (ltb overall_score 30);
         warnings :=
           ((if ltb overall_score 30
             then ["Low texture variation - possible photo"] else [])
            ++ (if ltb edge_density 20
                then ["Unusual edge patterns detected"] else []))%list |}
  end.

(** A value of a result dictionary of [verify_face]. *)
Inductive item : Type :=
| IBool (b : bool)
| IStr (s : string)
| INum (x : float).

Definition dict : Type := list (string * item).

(** [d.get(key, default)] *)
Definition get (d : dict) (key : string) (default : item) : item :=
  match find (fun kv => (fst kv =? key)%string) d with
  | Some kv => snd kv
  | None => default
  end.

(** [key in d] *)
Definition has_key (d : dict) (key : string) : bool :=
  existsb (fun kv => (fst kv =? key)%string) d.

(** [verify_face(employee_id, attendance_image_base64, tolerance)]; the
    ["security_analysis"] entry is not embedded.  [load_profile_image] and
    [compare_faces] handle their own exceptions, so the handler of
    [verify_face] is never entered. *)
Definition verify_face (round : float -> Z -> float)
  (library_available : bool) (load_profile_image : Z -> option string)
  (scan : string -> string -> Scan)
  (employee_id : Z) (attendance_image_base64 : string) (tolerance : float)
  : dict :=
  if negb library_available then
    [ ("success", IBool false);
      ("error", IStr "face_recognition_unavailable");
      ("message", IStr "Face recognition library not installed");
      ("confidence", INum 0) ]
  else
    let profile_image_base64 := load_profile_image employee_id in
    if negb (Py.truthy_str profile_image_base64) then
      [ ("success", IBool false);
        ("error", IStr "no_profile_image");
        ("message", IStr "No profile image found for employee");
        ("confidence", INum 0) ]
    else
      let result :=
        compare_faces round library_available
          (scan (match profile_image_base64 with Some p => p | None => "" end)
                attendance_image_base64)
          tolerance in
      if match_ result then
        [ ("success", IBool true);
          ("message", IStr "Face verification successful");
          ("confidence", INum (confidence result));
          ("face_distance",
           INum (match reported_distance result with
                 | Some d => d
                 | None => 0
                 end)) ]
      else
        [ ("success", IBool false);
          ("error", IStr "face_mismatch");
          ("message", IStr (result_message result));
          ("confidence", INum (confidence result));
          ("face_distance",
           INum (match reported_distance result with
                 | Some d => d
                 | None => 1
                 end)) ].

End FaceUtils.

(** ** Measurements for the face utilities *)

Module FaceFixtures.

Import PrimFloat.
Import FaceRecognition FaceUtils Fixtures.
Local Set Warnings "-inexact-float".

(** A flat image: little texture, few edges, little colour. *)
Definition flat_measures : LivenessMeasures :=
  {| texture_score := 50; edge_share := 0.05;
     color_variation := Some 10%float |}.

(** A scan at distance 0.1 whose liveness is that of [flat_measures]. *)
Definition flat_scan : Scan :=
  scan_at (detect_liveness_indicators (fun x _ => x) (inl flat_measures))
    0.1.

(** A dark, low-contrast, blurred image of sufficient size. *)
Definition poor_metrics : ImageMetrics :=
  {| brightness := 40; contrast := 20; blur_score := 50;
     height := 640; width := 480 |}.

End FaceFixtures.

(** ** The earlier definitions of the verification and validation stages *)

Module SupersededStages.

Import PrimFloat.
Import Py Model FaceUtils.
Local Open Scope string_scope.
Local Set Warnings "-inexact-float".

(** [x <= y] on reals, as a boolean. *)
Definition Rleb (x y : R) : bool := if Rle_dec x y then true else false.

(** [v is False] *)
Definition is_False (v : item) : bool :=
  match v with IBool false => true | _ => false end.

(** The number a dictionary entry stands for in a comparison with a float
    (a boolean counts as 0 or 1; no string is stored under ["confidence"]). *)
Definition as_float (v : item) : float :=
  match v with
  | INum x => x
  | IBool true => 1
  | IBool false => 0
  | IStr _ => nan
  end.

(** [_perform_verification] (earlier definition).  It has no failure
    branch: its dictionary always carries ["success": True].  With the
    utilities module not imported the call raises inside the [try] and the
    handler leaves the initial confidence. *)
Definition _perform_verification (env : Env) (employee : Employee)
  (photo_base64 : option string) (latitude longitude : option R)
  (use_face_recognition : bool) : Superseded.VerificationData :=
  let '(face_verified, face_confidence) :=
    if use_face_recognition && truthy_str photo_base64 then
      if face_module_loaded env then
        let face_result :=
          verify_face (round env) (face_library_available env)
            (load_profile_image env) (scan env) (emp_id employee)
            (match photo_base64 with Some p => p | None => "" end)
            0.6 in
        (negb (is_False (get face_result "verified" (IBool false))),
         as_float (get face_result "confidence" (INum 0)))
      else (false, 0%float)
    else (false, 0%float) in
  let '(distance_from_office, location_verified) :=
    match latitude, longitude with
    | Some lat, Some lon =>
        if truthy_float latitude && truthy_float longitude then
          let distance :=
            Geo._calculate_distance lat lon OFFICE_LAT OFFICE_LON in
          (Some distance, Rleb distance (IZR MAX_DISTANCE))
        else (None, false)
    | _, _ => (None, false)
    end in
  {| Superseded.face_verified := face_verified;
     Superseded.face_confidence := face_confidence;
     Superseded.location_verified := location_verified;
     Superseded.distance_from_office := distance_from_office |}.

(** [self.SHIFT_WINDOWS["Morning Shift"]] *)
Definition MORNING_WINDOW : ShiftConfig :=
  {| start := time 8 0; end_ := time 11 0; grace := 15 |}.

(** [_perform_validation] (earlier definition); it, too, always
    succeeds. *)
Definition _perform_validation (clk : Clock) (employee : Employee)
  (assigned_shift : option Shift) (wfh_request : option WFHRequest)
  (latitude longitude : option R) : Superseded.ValidationData :=
  let current_time := time_of (now clk) in
  let '(time_window_valid, shift_name, grace_period_used) :=
    match assigned_shift with
    | Some s =>
        let shift_config :=
          dict_get SHIFT_WINDOWS (Model.shift_name s) MORNING_WINDOW in
        let start_time := start shift_config in
        let end_time := end_ shift_config in
        let grace_minutes := grace shift_config in
        let grace_end := (combine (today clk) end_time
                          + minutes grace_minutes)%Z in
        let grace_end_time := time_of grace_end in
        if ((start_time <=? current_time) && (current_time <=? end_time))%Z
        then (true, Model.shift_name s, false)
        else if ((end_time <? current_time)
                 && (current_time <=? grace_end_time))%Z
        then (true, Model.shift_name s, true)
        else (false, Model.shift_name s, false)
    | None =>
        (((time 9 0 <=? current_time) && (current_time <=? time 11 0))%Z,
         "Default", false)
    end in
  {| Superseded.time_window_valid := time_window_valid;
     Superseded.location_required :=
       match wfh_request with Some _ => false | None => true end;
     Superseded.shift_name := shift_name;
     Superseded.grace_period_used := grace_period_used |}.

End SupersededStages.

(** ** [payroll_service.py]: the attendance data of a payroll run *)

Module Payroll.

Import PrimFloat.
Import Py.
Local Open Scope string_scope.

(** The attributes of an [AttendanceService] instance: those [__init__]
    sets and the methods of the class body. *)
Definition AttendanceService_attributes : list string :=
  [ "db"; "notification_service"; "security_service"; "OFFICE_COORDS";
    "MAX_DISTANCE"; "SHIFT_WINDOWS";
    "__init__"; "mark_attendance_comprehensive"; "_perform_pre_checks";
    "_perform_verification"; "_perform_validation";
    "_create_attendance_record"; "_calculate_distance";
    "_send_approval_notification"; "approve_attendance";
    "_verify_face_recognition"; "_validate_gps_location";
    "_detect_fraud_indicators"; "_get_employee_shift";
    "_haversine_distance"; "_calculate_late_minutes";
    "_save_attendance_photo"; "_send_fraud_alert" ].

(** [obj.name] on an [AttendanceService] instance. *)
Definition getattr (name : string) : outcome unit :=
  if existsb (String.eqb name) AttendanceService_attributes then Ok tt
  else Raise (AttributeError
                ("'AttendanceService' object has no attribute '" ++ name
                 ++ "'")).

(** The dictionary [_get_attendance_data] returns. *)
Record AttendanceData : Type := {
  total_working_days : float;
  actual_working_days : float;
  leave_days : Z;
  overtime_hours : float;
  attendance_percentage : float
}.

(** The values of the [except] branch. *)
Definition DEFAULT_ATTENDANCE_DATA : AttendanceData :=
  {| total_working_days := 22;
     actual_working_days := 22;
     leave_days := 0;
     overtime_hours := 0;
     attendance_percentage := 100 |}.

(** [PayrollService._get_attendance_data].  The [try] block begins with
    [self.attendance_service.get_working_days_in_month(year, month)];
    [counted] is what the rest of the block computes from the attendance
    rows of the month once that call has returned. *)
Definition _get_attendance_data (counted : outcome AttendanceData)
  : AttendanceData :=
  match getattr "get_working_days_in_month" with
  | Ok _ =>
      match counted with
      | Ok data => data
      | _ => DEFAULT_ATTENDANCE_DATA
      end
  | _ => DEFAULT_ATTENDANCE_DATA
  end.

End Payroll.

(** * Properties *)

(** ** Great-circle distance *)

Module GeoFacts.

Import Geo.
Local Open Scope R_scope.


Lemma hav_a_atan2_self (lat lon : R) : hav_a_atan2 lat lon lat lon = 0.
Proof.
  unfold hav_a_atan2.
  replace ((lat - lat) * PI / 180 / 2) with 0 by lra.
  replace ((lon - lon) * PI / 180 / 2) with 0 by lra.
  rewrite sin_0. ring.
Qed.



Lemma atan2_0_1 : atan2 0 1 = 0.
Proof.
  unfold atan2.
  destruct (Rlt_dec 0 1) as [_ | H]; [ | exfalso; lra ].
  replace (0 / 1) with 0 by lra. apply atan_0.
Qed.


Lemma haversine_distance_self (lat lon : R) :
  _haversine_distance lat lon lat lon = 0.
Proof.
  unfold _haversine_distance. cbv zeta.
  rewrite hav_a_atan2_self, Rminus_0_r, sqrt_0, sqrt_1, atan2_0_1. ring.
Qed.

(** The haversine term lies in [0, 1]: no [sqrt] or [asin] of the source is
    applied outside its domain. *)
Lemma haversine_term_bounds (p1 p2 s : R) :
  0 <= s <= 1 ->
  0 <= (1 - cos (p2 - p1)) / 2 + cos p1 * cos p2 * s <= 1.
Proof.
  intros Hs.
  pose proof (COS_bound (p2 - p1)) as Hm.
  pose proof (COS_bound (p2 + p1)) as Hp.
  rewrite cos_minus in Hm. rewrite cos_plus in Hp.
  rewrite cos_minus.
  split; nra.
Qed.

Lemma sin_half_sqr (x : R) : sin (x / 2) * sin (x / 2) = (1 - cos x) / 2.
Proof.
  pose proof (cos_2a_sin (x / 2)) as H.
  replace (2 * (x / 2)) with x in H by lra. lra.
Qed.


Lemma hav_a_asin_bounds (lat1 lon1 lat2 lon2 : R) :
  0 <= hav_a_asin lat1 lon1 lat2 lon2 <= 1.
Proof.
  unfold hav_a_asin.
  replace (sin ((lat2 - lat1) / 2) ^ 2)
    with (sin ((lat2 - lat1) / 2) * sin ((lat2 - lat1) / 2)) by ring.
  replace (sin ((lon2 - lon1) / 2) ^ 2)
    with (sin ((lon2 - lon1) / 2) * sin ((lon2 - lon1) / 2)) by ring.
  rewrite !sin_half_sqr.
  apply haversine_term_bounds.
  pose proof (COS_bound (lon2 - lon1)). lra.
Qed.


End GeoFacts.

(** ** Face comparison *)

Module FaceFacts.

Import PrimFloat FaceRecognition Fixtures.
Local Open Scope float_scope.
Local Set Warnings "-inexact-float".

(** The match decision of [compare_faces], in closed form. *)
Lemma compare_faces_match (round : float -> Z -> float) (lib : bool)
  (s : Scan) (tol : float) :
  match_ (compare_faces round lib s tol)
  = reaches_comparison lib s
    && leb (face_distance s) tol
    && negb (too_many_warnings s).
Proof.
  unfold compare_faces, reaches_comparison, too_many_warnings,
    adjusted_confidence.
  destruct lib; cbn [negb andb]; [ | reflexivity ].
  destruct (exception s); cbn [andb]; [ reflexivity | ].
  destruct (profile_decoded s); cbn [negb andb]; [ | reflexivity ].
  destruct (attendance_decoded s); cbn [negb andb]; [ | reflexivity ].
  destruct (acceptable (quality_analysis s)); cbn [negb andb]; [ | reflexivity ].
  destruct (Py.truthy_str (profile_error s)); cbn [negb andb]; [ reflexivity | ].
  destruct (Py.truthy_str (attendance_error s)); cbn [negb andb]; [ reflexivity | ].
  destruct ((2 <=? List.length (liveness_warnings s))%nat
            && ltb (distance_confidence (face_distance s)
                    * security_confidence_modifier s) 85);
    cbn [match_ negb]; [ now rewrite Bool.andb_false_r | now rewrite Bool.andb_true_r ].
Qed.

(** The confidence [compare_faces] reports once the encodings are compared. *)
Lemma compare_faces_confidence (round : float -> Z -> float) (lib : bool)
  (s : Scan) (tol : float) :
  reaches_comparison lib s = true ->
  confidence (compare_faces round lib s tol) = round (adjusted_confidence s) 2%Z.
Proof.
  unfold compare_faces, reaches_comparison, adjusted_confidence.
  destruct lib; cbn [negb andb]; [ | discriminate ].
  destruct (exception s); cbn [andb]; [ discriminate | ].
  destruct (profile_decoded s); cbn [negb andb]; [ | discriminate ].
  destruct (attendance_decoded s); cbn [negb andb]; [ | discriminate ].
  destruct (acceptable (quality_analysis s)); cbn [negb andb]; [ | discriminate ].
  destruct (Py.truthy_str (profile_error s)); cbn [negb andb]; [ discriminate | ].
  destruct (Py.truthy_str (attendance_error s)); cbn [negb andb]; [ discriminate | ].
  intros _.
  destruct ((2 <=? List.length (liveness_warnings s))%nat
            && ltb (distance_confidence (face_distance s)
                    * security_confidence_modifier s) 85);
    reflexivity.
Qed.

(** C8. The distance-based confidence is discounted by 0.8 for a liveness
    score under 50 and by 0.9 for a quality score under 80, the two
    discounts multiplying; the discounted confidence is the one the
    comparison reports; and with two or more security warnings and a
    discounted confidence under 85 the result is a mismatch whatever the
    distance test said. *)
Theorem discounts_then_forced_mismatch :
  forall (round : float -> Z -> float) (lib : bool) (s : Scan) (tol : float),
    security_confidence_modifier s
    = (if ltb (overall_score (liveness_analysis s)) 50
       then (if (quality_score (quality_analysis s) <? 80)%Z
             then 1 * 0.8 * 0.9 else 1 * 0.8)
       else (if (quality_score (quality_analysis s) <? 80)%Z
             then 1 * 0.9 else 1))
    /\ adjusted_confidence s
       = distance_confidence (face_distance s) * security_confidence_modifier s
    /\ (reaches_comparison lib s = true ->
        confidence (compare_faces round lib s tol)
        = round (adjusted_confidence s) 2%Z)
    /\ ((2 <= List.length (liveness_warnings s))%nat ->
        ltb (adjusted_confidence s) 85 = true ->
        match_ (compare_faces round lib s tol) = false)
    /\ (reaches_comparison lib s = true ->
        too_many_warnings s = false ->
        match_ (compare_faces round lib s tol) = leb (face_distance s) tol).
Proof.
  intros round lib s tol.
  split.
  { unfold security_confidence_modifier.
    destruct (ltb (overall_score (liveness_analysis s)) 50);
      destruct (quality_score (quality_analysis s) <? 80)%Z; reflexivity. }
  split; [ reflexivity | ].
  split; [ apply compare_faces_confidence | ].
  split.
  - intros Hn Hc. rewrite compare_faces_match.
    unfold too_many_warnings. rewrite Hc.
    apply Nat.leb_le in Hn. rewrite Hn. cbn.
    apply Bool.andb_false_r.
  - intros Hr Ht. rewrite compare_faces_match, Hr, Ht. cbn.
    apply Bool.andb_true_r.
Qed.

Lemma discounts_then_forced_mismatch_witness :
  match_ (compare_faces (fun x _ => x) true (scan_at flat_texture 0.1) 0.6)
  = false
  /\ leb (face_distance (scan_at flat_texture 0.1)) 0.6 = true.
Proof.
  split; [ | vm_compute; reflexivity ].
  apply (proj1 (proj2 (proj2 (proj2
           (discounts_then_forced_mismatch
              (fun x _ => x) true (scan_at flat_texture 0.1) 0.6))))).
  - vm_compute. apply le_n.
  - vm_compute. reflexivity.
Defined.

End FaceFacts.

(** ** Identity verification *)

Module IdentityFacts.

Import PrimFloat.
Import Py Model FaceRecognition AttendanceService Scenario Fixtures.
Local Open Scope string_scope.
Local Set Warnings "-inexact-float".

(** With a reference image on file, the stage accepts or reports a mismatch
    as [compare_faces] decides. *)
Lemma verify_face_recognition_cases (env : Env) (employee : Employee)
  (photo : string) :
  face_module_loaded env = true ->
  truthy_str (load_profile_image env (emp_id employee)) = true ->
  _verify_face_recognition env employee photo
  = if match_ (compare_faces (round env) (face_library_available env)
                 (scan_of env employee photo) 0.6%float)
    then Ok (confidence (compare_faces (round env) (face_library_available env)
                           (scan_of env employee photo) 0.6%float))
    else failed "face_mismatch" "Face does not match profile image".
Proof.
  intros Hm Hp. unfold _verify_face_recognition, scan_of.
  rewrite Hm, Hp. cbn [negb].
  destruct (match_ _); reflexivity.
Qed.

(** C5, as the code has it. With identity verification requested and a
    reference image on file, the stage fails with [face_mismatch] exactly
    when [compare_faces] reports no match: the run did not get as far as
    comparing encodings, or the face distance exceeds the tolerance 0.6, or
    two or more security warnings meet a discounted confidence under 85.
    Otherwise it succeeds with the distance-based confidence
    max(0, min(100, (1 - distance) * 100)) times the security modifier, as
    rounded for the report. *)
Theorem face_mismatch_iff_no_match :
  forall (env : Env) (employee : Employee) (photo : string),
    face_module_loaded env = true ->
    truthy_str (load_profile_image env (emp_id employee)) = true ->
    let s := scan_of env employee photo in
    (error_of (_verify_face_recognition env employee photo)
       = Some "face_mismatch"
     <-> (reaches_comparison (face_library_available env) s = false
          \/ leb (face_distance s) 0.6 = false
          \/ too_many_warnings s = true))
    /\ (reaches_comparison (face_library_available env) s = true ->
        leb (face_distance s) 0.6 = true ->
        too_many_warnings s = false ->
        _verify_face_recognition env employee photo
        = Ok (round env
                (py_max 0 (py_min 100 ((1 - face_distance s) * 100))
                 * security_confidence_modifier s) 2%Z)).
Proof.
  intros env employee photo Hm Hp s.
  rewrite (verify_face_recognition_cases env employee photo Hm Hp).
  fold s. rewrite FaceFacts.compare_faces_match.
  split.
  - destruct (reaches_comparison (face_library_available env) s);
      destruct (leb (face_distance s) 0.6);
      destruct (too_many_warnings s); cbn; split; intro H;
      try reflexivity; try discriminate; auto;
      destruct H as [H | [H | H]]; discriminate.
  - intros Hr Hd Ht. rewrite Hr, Hd, Ht. cbn [andb negb].
    rewrite FaceFacts.compare_faces_confidence by exact Hr. reflexivity.
Qed.

(** A face at distance 0.5 from the profile passes although its confidence
    is 50, and a face at distance 0.1 (confidence 90) is a mismatch when the
    image looks like a photograph of a photograph. *)
Lemma confidence_below_60_is_not_the_test :
  ltb (distance_confidence 0.5) 60 = true
  /\ _verify_face_recognition (env_with (scan_at lively 0.5) passing_service)
       alice "photo" = Ok 50%float
  /\ ltb (distance_confidence 0.1) 60 = false
  /\ error_of (_verify_face_recognition
                 (env_with (scan_at flat_texture 0.1) passing_service)
                 alice "photo") = Some "face_mismatch".
Proof. repeat split; vm_compute; reflexivity. Qed.

Lemma face_mismatch_iff_no_match_witness :
  _verify_face_recognition (env_with (scan_at lively 0.5) passing_service)
    alice "photo"
  = Ok (round (env_with (scan_at lively 0.5) passing_service)
          (py_max 0 (py_min 100 ((1 - 0.5) * 100))
           * security_confidence_modifier (scan_at lively 0.5)) 2%Z).
Proof.
  apply (proj2 (face_mismatch_iff_no_match
                  (env_with (scan_at lively 0.5) passing_service)
                  alice "photo" eq_refl eq_refl));
    vm_compute; reflexivity.
Defined.

End IdentityFacts.

(** ** The verification stage and the pipeline around it *)

Module VerificationFacts.

Import PrimFloat.
Import Py Model AttendanceService Scenario Fixtures.
Local Open Scope string_scope.

Lemma truthy_zero : truthy_float (Some 0%R) = false.
Proof.
  unfold truthy_float. destruct (Req_dec_T 0 0) as [_ | H];
    [ reflexivity | now elim H ].
Qed.

Lemma truthy_nonzero (x : R) : x <> 0%R -> truthy_float (Some x) = true.
Proof.
  intros Hx. unfold truthy_float.
  destruct (Req_dec_T x 0) as [H | _]; [ now elim Hx | reflexivity ].
Qed.

(** A position with a zero coordinate is turned away as missing. *)
Lemma validate_gps_zero (x y : R) :
  x = 0%R \/ y = 0%R ->
  _validate_gps_location (Some x) (Some y)
  = failed "location_required"
      "GPS location is required for office attendance".
Proof.
  intros [-> | ->]; unfold _validate_gps_location; rewrite truthy_zero.
  - reflexivity.
  - now rewrite Bool.orb_true_r.
Qed.

(** At the office itself the position is accepted, at distance 0. *)
Lemma validate_gps_at_office :
  _validate_gps_location (Some OFFICE_LAT) (Some OFFICE_LON) = Ok 0%R.
Proof.
  unfold _validate_gps_location.
  rewrite !truthy_nonzero by (unfold OFFICE_LAT, OFFICE_LON; lra).
  cbn [negb orb].
  rewrite GeoFacts.haversine_distance_self.
  unfold Rltb, MAX_DISTANCE.
  destruct (Rlt_dec (IZR 100) 0) as [H | _]; [ exfalso; lra | reflexivity ].
Qed.

(** The name the last [return] of [_perform_verification] reads is bound in
    no scope. *)
Lemma fraud_indicators_unbound (photo work_mode : string) (use_face : bool) :
  load_name (_perform_verification_locals photo work_mode use_face)
    module_globals builtins "fraud_indicators"
  = Raise (NameError "fraud_indicators").
Proof.
  unfold _perform_verification_locals.
  destruct use_face; destruct (work_mode =? "office"); reflexivity.
Qed.

(** Past the earlier checks, the stage ends in the security failure or in
    the unbound name. *)
Lemma verification_after_earlier_checks (env : Env) (db : DB) (clk : Clock)
  (employee : Employee) (photo_base64 : option string)
  (latitude longitude : option R) (use_face : bool)
  (photo : string) (distance : option R) :
  earlier_checks_pass env db clk employee photo_base64 latitude longitude
    use_face photo distance ->
  _perform_verification env db clk employee photo_base64 latitude longitude
    use_face
  = let security :=
      validate_attendance_security env db clk (emp_id employee) photo
        latitude longitude distance in
    if negb (security_passed security) then
      failed "security_validation_failed"
        ("Security validation failed: "
         ++ String.concat ", " (critical_issues security))
    else Raise (NameError "fraud_indicators").
Proof.
  intros (Hphoto & Htruthy & Hface & Hgps).
  unfold _perform_verification. rewrite Htruthy. cbn [negb].
  subst photo_base64.
  assert (Hf : exists c, (if use_face
                          then _verify_face_recognition env employee photo
                          else Ok 0%float) = Ok c).
  { destruct use_face; [ now apply Hface | now exists 0%float ]. }
  destruct Hf as [c ->].
  destruct (approved_wfh db (emp_id employee) (today clk)) as [w | ].
  - subst distance. cbn [String.eqb Ascii.eqb Bool.eqb].
    cbv zeta.
    destruct (negb (security_passed _)); [ reflexivity | ].
    now rewrite fraud_indicators_unbound.
  - destruct Hgps as (d & -> & ->). cbn [String.eqb Ascii.eqb Bool.eqb].
    cbv zeta.
    destruct (negb (security_passed _)); [ reflexivity | ].
    now rewrite fraud_indicators_unbound.
Qed.

(** The record-creation call of the pipeline, were it reached. *)
Lemma record_creation_call_five :
  record_creation_call
    [ "employee"; "assigned_shift"; "wfh_request"; "verification_result";
      "validation_result" ]
  = Some (TypeError "AttendanceService._create_attendance_record() missing 3 required positional arguments: 'longitude', 'verification_data', and 'validation_data'").
Proof. reflexivity. Qed.

(** The stage returns no success dictionary on any input. *)
Lemma verification_never_ok (env : Env) (db : DB) (clk : Clock)
  (employee : Employee) (photo_base64 : option string)
  (latitude longitude : option R) (use_face : bool) :
  succeeded (_perform_verification env db clk employee photo_base64
               latitude longitude use_face) = false.
Proof.
  unfold _perform_verification.
  destruct (negb (truthy_str photo_base64)); [ reflexivity | ].
  destruct (if use_face then _ else _) as [c | f | e]; try reflexivity.
  cbv zeta.
  destruct (if (_ =? "office") then _ else _) as [[g d] | f | e];
    try reflexivity.
  destruct (negb (security_passed _)); [ reflexivity | ].
  now rewrite fraud_indicators_unbound.
Qed.

(** The pipeline leaves the session as it found it and reports no
    success. *)
Lemma pipeline_never_records (env : Env) (db : DB) (clk : Clock)
  (employee_id : Z) (photo_base64 : option string)
  (latitude longitude : option R) (use_face : bool) :
  snd (mark_attendance_comprehensive env db clk employee_id photo_base64
         latitude longitude use_face) = db
  /\ succeeded (fst (mark_attendance_comprehensive env db clk employee_id
                       photo_base64 latitude longitude use_face)) = false.
Proof.
  unfold mark_attendance_comprehensive.
  destruct (_perform_pre_checks db clk employee_id) as [pre | f | e];
    [ | now split | now split ].
  pose proof (verification_never_ok env db clk (employee pre) photo_base64
                latitude longitude use_face) as Hv.
  destruct (_perform_verification env db clk (employee pre) photo_base64
              latitude longitude use_face) as [v | f | e];
    [ discriminate Hv | now split | now split ].
Qed.

(** C2. A submission that passes the pre-checks and every sub-check of the
    verification stage makes the stage read the unbound name
    [fraud_indicators]: the stage raises [NameError], which
    [mark_attendance_comprehensive] reports as a [system_error]; the stage
    returns success on no input at all, so the pipeline never reaches the
    record creation: it leaves the session unchanged and reports no
    success. *)
Theorem verification_raises_on_unbound_name :
  forall (env : Env) (db : DB) (clk : Clock) (employee_id : Z)
         (photo_base64 : option string) (latitude longitude : option R)
         (use_face : bool) (pre : PreChecks),
    _perform_pre_checks db clk employee_id = Ok pre ->
    sub_checks_pass env db clk (employee pre) photo_base64 latitude longitude
      use_face ->
    _perform_verification env db clk (employee pre) photo_base64 latitude
      longitude use_face = Raise (NameError "fraud_indicators")
    /\ mark_attendance_comprehensive env db clk employee_id photo_base64
         latitude longitude use_face
       = (Fail {| error := "System error: name 'fraud_indicators' is not defined";
                  message := None;
                  error_type := Some "system_error" |}, db)
    /\ (forall e p la lo u,
          succeeded (_perform_verification env db clk e p la lo u) = false)
    /\ (forall i p la lo u,
          snd (mark_attendance_comprehensive env db clk i p la lo u) = db
          /\ succeeded
               (fst (mark_attendance_comprehensive env db clk i p la lo u))
             = false).
Proof.
  intros env db clk employee_id photo_base64 latitude longitude use_face pre
    Hpre (photo & distance & Hearlier & Hsec).
  assert (Hv : _perform_verification env db clk (employee pre) photo_base64
                 latitude longitude use_face
               = Raise (NameError "fraud_indicators")).
  { rewrite (verification_after_earlier_checks Hearlier).
    cbv zeta. now rewrite Hsec. }
  split; [ exact Hv | ].
  split.
  { unfold mark_attendance_comprehensive. rewrite Hpre, Hv. reflexivity. }
  split.
  - intros. apply verification_never_ok.
  - intros. apply pipeline_never_records.
Qed.

Lemma verification_raises_on_unbound_name_witness :
  mark_attendance_comprehensive env0 db0 (clock_at 0 day0 9 30) 1
    (Some "photo") (Some OFFICE_LAT) (Some OFFICE_LON) true
  = (Fail {| error := "System error: name 'fraud_indicators' is not defined";
             message := None;
             error_type := Some "system_error" |}, db0).
Proof.
  refine (proj1 (proj2
    (@verification_raises_on_unbound_name env0 db0 (clock_at 0 day0 9 30) 1
       (Some "photo") (Some OFFICE_LAT) (Some OFFICE_LON) true
       {| employee := alice; wfh_request := None;
          assigned_shift := Some morning |} _ _))).
  - vm_compute. reflexivity.
  - exists "photo", (Some 0%R).
    split; [ | reflexivity ].
    split; [ reflexivity | ].
    split; [ reflexivity | ].
    split.
    + intros _. exists 75%float. vm_compute. reflexivity.
    + change (approved_wfh db0 (emp_id alice) (today (clock_at 0 day0 9 30)))
        with (@None WFHRequest).
      exists 0%R. split; [ apply validate_gps_at_office | reflexivity ].
Defined.

(** C10. A position one of whose coordinates is exactly 0.0 counts as
    missing although both coordinates were supplied: [_validate_gps_location]
    fails with [location_required], so does the verification stage of an
    office-mode submission whose photo and face checks pass, and the
    validation stage fails such a submission with
    [location_required_office]. *)
Theorem zero_coordinate_is_treated_as_absent :
  forall x y : R,
    x = 0%R \/ y = 0%R ->
    error_of (_validate_gps_location (Some x) (Some y))
      = Some "location_required"
    /\ (forall env db clk employee photo use_face,
          truthy_str (Some photo) = true ->
          (use_face = true ->
           exists c, _verify_face_recognition env employee photo = Ok c) ->
          approved_wfh db (emp_id employee) (today clk) = None ->
          error_of (_perform_verification env db clk employee (Some photo)
                      (Some x) (Some y) use_face)
            = Some "location_required")
    /\ (forall clk employee assigned_shift,
          error_of (_perform_validation clk employee assigned_shift None
                      (Some x) (Some y))
            = Some "location_required_office").
Proof.
  intros x y Hxy.
  pose proof (validate_gps_zero Hxy) as Hgps.
  split; [ now rewrite Hgps | ].
  split.
  - intros env db clk employee photo use_face Hp Hface Hwfh.
    unfold _perform_verification. rewrite Hp. cbn [negb].
    assert (Hf : exists c, (if use_face
                            then _verify_face_recognition env employee photo
                            else Ok 0%float) = Ok c).
    { destruct use_face; [ now apply Hface | now exists 0%float ]. }
    destruct Hf as [c ->].
    rewrite Hwfh. cbv zeta. cbn [String.eqb Ascii.eqb Bool.eqb].
    rewrite Hgps. reflexivity.
  - intros clk employee assigned_shift.
    unfold _perform_validation. cbv zeta.
    destruct (time_window_check _ _ _) as [[[w a] st] l].
    assert (Ht : negb (truthy_float (Some x)) || negb (truthy_float (Some y))
                 = true).
    { destruct Hxy as [-> | ->]; rewrite truthy_zero;
        [ reflexivity | apply Bool.orb_true_r ]. }
    rewrite Ht. reflexivity.
Qed.

Lemma zero_coordinate_is_treated_as_absent_witness :
  error_of (_validate_gps_location (Some 0%R) (Some OFFICE_LON))
    = Some "location_required"
  /\ error_of (_perform_verification env0 db0 (clock_at 0 day0 9 30) alice
                 (Some "photo") (Some 0%R) (Some OFFICE_LON) true)
     = Some "location_required".
Proof.
  pose proof (@zero_coordinate_is_treated_as_absent 0%R OFFICE_LON
                (or_introl eq_refl)) as (H1 & H2 & _).
  split; [ exact H1 | ].
  apply H2.
  - reflexivity.
  - intros _. exists 75%float. vm_compute. reflexivity.
  - reflexivity.
Defined.

(** The rapid-repeat service of the specification blocks as the
    specification asks. *)
Lemma rapid_repeat_service_blocks (s : FaceRecognition.Scan) :
  SecurityServiceSpec.hard_blocks_rapid_repeat
    (env_with s SecurityServiceSpec.rapid_repeat_service).
Proof.
  intros db clk employee_id photo latitude longitude distance H.
  cbn. apply Z.ltb_lt in H. now rewrite H.
Qed.

(** C7, as the code has it. With more than zero attendance rows of the
    employee dated in the last five minutes, [_detect_fraud_indicators]
    reports a high-severity [rapid_attempts] indicator.  The verification
    stage consults the security service, and only after its photo, face and
    position checks: if that service hard-blocks rapid repeats, a submission
    that passes those earlier checks fails with
    [security_validation_failed]; a submission without a photo fails with
    [photo_required] first.  In no case does the stage succeed or the
    pipeline add a row. *)
Theorem rapid_repeat_blocks_after_earlier_checks :
  forall (env : Env) (db : DB) (clk : Clock) (employee : Employee)
         (photo_base64 : option string) (latitude longitude : option R)
         (use_face : bool),
    (0 < recent_attempts db clk (emp_id employee))%Z ->
    (forall photo verification_data,
        In {| ind_type := "rapid_attempts"; severity := "high";
              details := "Multiple attendance attempts within 5 minutes" |}
           (_detect_fraud_indicators env db clk employee photo latitude
              longitude verification_data))
    /\ (SecurityServiceSpec.hard_blocks_rapid_repeat env ->
        forall photo distance,
          earlier_checks_pass env db clk employee photo_base64 latitude
            longitude use_face photo distance ->
          error_of (_perform_verification env db clk employee photo_base64
                      latitude longitude use_face)
            = Some "security_validation_failed")
    /\ (truthy_str photo_base64 = false ->
        error_of (_perform_verification env db clk employee photo_base64
                    latitude longitude use_face)
          = Some "photo_required")
    /\ succeeded (_perform_verification env db clk employee photo_base64
                    latitude longitude use_face) = false
    /\ snd (mark_attendance_comprehensive env db clk (emp_id employee)
              photo_base64 latitude longitude use_face) = db.
Proof.
  intros env db clk employee photo_base64 latitude longitude use_face Hrecent.
  split.
  { intros photo vd. unfold _detect_fraud_indicators.
    apply in_or_app. right. apply in_or_app. right. apply in_or_app. left.
    apply Z.ltb_lt in Hrecent. rewrite Hrecent. now left. }
  split.
  { intros Hblock photo distance Hearlier.
    rewrite (verification_after_earlier_checks Hearlier). cbv zeta.
    rewrite (Hblock db clk (emp_id employee) photo latitude longitude
               distance Hrecent).
    reflexivity. }
  split.
  { intros Hp. unfold _perform_verification. now rewrite Hp. }
  split; [ apply verification_never_ok | apply pipeline_never_records ].
Qed.

Lemma rapid_repeat_blocks_after_earlier_checks_witness :
  error_of (_perform_verification
              (env_with (scan_at lively 0.25)
                 SecurityServiceSpec.rapid_repeat_service)
              db_pending (clock_at 0 day0 11 41) alice (Some "photo")
              (Some OFFICE_LAT) (Some OFFICE_LON) true)
  = Some "security_validation_failed".
Proof.
  assert (Hrecent : (0 < recent_attempts db_pending (clock_at 0 day0 11 41)
                           (emp_id alice))%Z) by reflexivity.
  refine (proj1 (proj2
    (@rapid_repeat_blocks_after_earlier_checks
       (env_with (scan_at lively 0.25) SecurityServiceSpec.rapid_repeat_service)
       db_pending (clock_at 0 day0 11 41) alice (Some "photo")
       (Some OFFICE_LAT) (Some OFFICE_LON) true Hrecent))
    (rapid_repeat_service_blocks _) "photo" (Some 0%R) _).
  split; [ reflexivity | ].
  split; [ reflexivity | ].
  split.
  - intros _. exists 75%float. vm_compute. reflexivity.
  - change (approved_wfh db_pending (emp_id alice)
              (today (clock_at 0 day0 11 41))) with (@None WFHRequest).
    exists 0%R. split; [ apply validate_gps_at_office | reflexivity ].
Defined.

(** A rapid repeat that does not end in [security_validation_failed]: with
    a row of the employee one minute old, a submission without a photo fails
    the verification stage with [photo_required], and the pipeline turns the
    same employee away at the pre-checks with [already_marked]. *)
Lemma rapid_repeat_without_photo_is_photo_required :
  (0 <? recent_attempts db_pending (clock_at 0 day0 11 41) (emp_id alice))%Z
    = true
  /\ SecurityServiceSpec.hard_blocks_rapid_repeat
       (env_with (scan_at lively 0.25) SecurityServiceSpec.rapid_repeat_service)
  /\ error_of (_perform_verification
                 (env_with (scan_at lively 0.25)
                    SecurityServiceSpec.rapid_repeat_service)
                 db_pending (clock_at 0 day0 11 41) alice None
                 (Some OFFICE_LAT) (Some OFFICE_LON) true)
     = Some "photo_required"
  /\ error_of (fst (mark_attendance_comprehensive
                      (env_with (scan_at lively 0.25)
                         SecurityServiceSpec.rapid_repeat_service)
                      db_pending (clock_at 0 day0 11 41) 1 (Some "photo")
                      (Some OFFICE_LAT) (Some OFFICE_LON) true))
     = Some "already_marked".
Proof.
  split; [ reflexivity | ].
  split; [ apply rapid_repeat_service_blocks | ].
  split; reflexivity.
Qed.

End VerificationFacts.

(** ** The validation stage: shift windows and late minutes *)

Module ValidationFacts.

Import Py Model AttendanceService Scenario Fixtures.
Local Open Scope string_scope.
Local Open Scope Z_scope.

Lemma time_of_combine (d t : Z) :
  0 <= t < MICROS_PER_DAY -> time_of (combine d t) = t.
Proof.
  intros Ht. unfold time_of, combine.
  rewrite Z.add_comm, Z.mod_add by (unfold MICROS_PER_DAY; lia).
  now apply Z.mod_small.
Qed.

Lemma late_minutes_whole (expected m : Z) :
  0 < m -> _calculate_late_minutes (expected + minutes m) expected = m.
Proof.
  intros Hm. unfold _calculate_late_minutes, minutes, MICROS_PER_MINUTE.
  replace (expected <? expected + m * 60000000) with true
    by (symmetry; apply Z.ltb_lt; lia).
  replace (expected + m * 60000000 - expected) with (m * 60000000) by lia.
  apply Z.div_mul. lia.
Qed.

(** The boundaries of a shift window whose grace period ends before
    midnight: a check-in at the end is within the window; one at the end of
    the grace period is accepted as late by the grace minutes; one a minute
    later is flagged for approval, late by one minute more. *)
Lemma window_boundaries_before_midnight (d : Z) (cfg : ShiftConfig) :
  0 <= start cfg <= end_ cfg ->
  0 < grace cfg ->
  end_ cfg + minutes (grace cfg) + minutes 1 < MICROS_PER_DAY ->
  time_window_check d (end_ cfg) (Some cfg) = (true, false, "present", 0)
  /\ time_window_check d (end_ cfg + minutes (grace cfg)) (Some cfg)
     = (true, false, "present", grace cfg)
  /\ time_window_check d (end_ cfg + minutes (grace cfg) + minutes 1) (Some cfg)
     = (false, true, "late", grace cfg + 1).
Proof.
  intros Hse Hg Hday.
  assert (Hm1 : minutes 1 = 60000000) by reflexivity.
  assert (Hmg : 0 < minutes (grace cfg))
    by (unfold minutes, MICROS_PER_MINUTE; lia).
  assert (Hcombine : combine d (end_ cfg) + minutes (grace cfg)
                     = combine d (end_ cfg + minutes (grace cfg)))
    by (unfold combine; lia).
  assert (Hge : time_of (combine d (end_ cfg) + minutes (grace cfg))
                = end_ cfg + minutes (grace cfg)).
  { rewrite Hcombine. apply time_of_combine. lia. }
  unfold time_window_check. rewrite Hge.
  split; [ | split ].
  - replace ((start cfg <=? end_ cfg) && (end_ cfg <=? end_ cfg)) with true;
      [ reflexivity | ].
    symmetry. apply andb_true_intro. split; apply Z.leb_le; lia.
  - replace (end_ cfg + minutes (grace cfg) <=? end_ cfg) with false
      by (symmetry; apply Z.leb_gt; lia).
    rewrite Bool.andb_false_r, Z.leb_refl.
    now rewrite late_minutes_whole.
  - replace (end_ cfg + minutes (grace cfg) + minutes 1 <=? end_ cfg) with false
      by (symmetry; apply Z.leb_gt; lia).
    rewrite Bool.andb_false_r.
    replace (end_ cfg + minutes (grace cfg) + minutes 1
             <=? end_ cfg + minutes (grace cfg)) with false
      by (symmetry; apply Z.leb_gt; lia).
    replace (end_ cfg + minutes (grace cfg) + minutes 1)
      with (end_ cfg + minutes (grace cfg + 1))
      by (unfold minutes; lia).
    rewrite late_minutes_whole by lia. reflexivity.
Qed.


(** The three windows other than the night shift obey the boundaries. *)
Lemma day_shift_boundaries (d : Z) (cfg : ShiftConfig) :
  In cfg [ dict_get SHIFT_WINDOWS "Morning Shift" FALLBACK_WINDOW;
           dict_get SHIFT_WINDOWS "Evening Shift" FALLBACK_WINDOW;
           FALLBACK_WINDOW ] ->
  time_window_check d (end_ cfg) (Some cfg) = (true, false, "present", 0)
  /\ time_window_check d (end_ cfg + minutes (grace cfg)) (Some cfg)
     = (true, false, "present", grace cfg)
  /\ time_window_check d (end_ cfg + minutes (grace cfg) + minutes 1) (Some cfg)
     = (false, true, "late", grace cfg + 1).
Proof.
  intros [<- | [<- | [<- | []]]];
    apply window_boundaries_before_midnight; vm_compute; intuition congruence.
Qed.


End ValidationFacts.

(** ** Record creation and approval *)

Module RecordFacts.

Import PrimFloat.
Import Py Model AttendanceService Scenario Fixtures.
Local Open Scope string_scope.
Local Open Scope Z_scope.
Local Set Warnings "-inexact-float".

(** *** The idempotency gate *)

(** When the pre-checks find a row in today's window they turn an active
    employee away with [already_marked]. *)
Lemma pre_checks_gate (db : DB) (clk : Clock) (e : Employee) (u : User)
  (a : Attendance) :
  first (fun x => emp_id x =? emp_id e) (employees db) = Some e ->
  emp_user e = Some u -> is_active u = true ->
  existing_attendance db clk (emp_id e) = Some a ->
  error_of (_perform_pre_checks db clk (emp_id e)) = Some "already_marked".
Proof.
  intros He Hu Ha Hx. unfold _perform_pre_checks.
  now rewrite He, Hu, Ha, Hx.
Qed.

(** The row a submission adds is dated by the UTC clock, while the window
    the pre-checks search is the local day less its last microsecond: the
    row is found again only if its UTC instant falls in that window. *)
Lemma existing_attendance_window (db : DB) (clk : Clock) (employee_id : Z)
  (a : Attendance) :
  existing_attendance db clk employee_id = Some a ->
  att_employee_id a = employee_id
  /\ combine (today clk) time_min <= att_date a < combine (today clk) time_max.
Proof.
  unfold existing_attendance, first. intros H.
  apply find_some in H. destruct H as [_ H].
  apply andb_prop in H. destruct H as [H H3].
  apply andb_prop in H. destruct H as [H1 H2].
  apply Z.eqb_eq in H1. apply Z.leb_le in H2. apply Z.ltb_lt in H3.
  auto.
Qed.

(** Where the gate does hold: a row of the employee dated within the local
    day of the second submission, and not in its last microsecond, makes the
    pre-checks answer [already_marked]. *)
Lemma gate_holds_inside_window (db : DB) (clk : Clock) (e : Employee)
  (u : User) (a : Attendance) :
  first (fun x => emp_id x =? emp_id e) (employees db) = Some e ->
  emp_user e = Some u -> is_active u = true ->
  In a (attendances db) ->
  att_employee_id a = emp_id e ->
  date_of (att_date a) = today clk ->
  time_of (att_date a) <> time_max ->
  error_of (_perform_pre_checks db clk (emp_id e)) = Some "already_marked".
Proof.
  intros He Hu Ha Hin Hid Hday Hlast.
  destruct (existing_attendance db clk (emp_id e)) as [b | ] eqn:Hx.
  - eapply pre_checks_gate; eassumption.
  - exfalso. unfold existing_attendance, first in Hx.
    pose proof (find_none _ _ Hx a Hin) as Hp. cbv beta in Hp.
    rewrite Hid, Z.eqb_refl in Hp. cbn [andb] in Hp.
    unfold date_of in Hday. unfold time_of, time_max in Hlast.
    unfold combine, time_min, time_max in Hp.
    pose proof (Z.div_mod (att_date a) MICROS_PER_DAY) as Hdm.
    pose proof (Z.mod_pos_bound (att_date a) MICROS_PER_DAY) as Hb.
    unfold MICROS_PER_DAY in *.
    specialize (Hdm ltac:(lia)). specialize (Hb ltac:(lia)).
    rewrite Hday in Hdm.
    apply Bool.andb_false_iff in Hp. destruct Hp as [Hp | Hp].
    + apply Z.leb_gt in Hp. lia.
    + apply Z.ltb_ge in Hp. lia.
Qed.


(** The same on a server in UTC, for a row created in the last microsecond
    of the day: the window's upper bound [time.max] is exclusive. *)
Lemma last_microsecond_is_outside_window :
  let clk := {| utc_instant := combine day0 time_max; utc_offset := 0 |} in
  let first_call :=
    gated_record_creation env0 (db_wfh day0) clk 1 (Some "photo") None None
      plain_verification (validation_with "wfh" "late" true) in
  succeeded (fst first_call) = true
  /\ error_of (_perform_pre_checks (snd first_call) clk 1) = None
  /\ succeeded (_perform_pre_checks (snd first_call) clk 1) = true.
Proof. vm_compute. repeat split; reflexivity. Qed.

(** *** Approval *)

Lemma first_update_first {A} (p : A -> bool) (f : A -> A) (rows : list A) :
  (forall r, p (f r) = p r) ->
  first p (update_first p f rows) = option_map f (first p rows).
Proof.
  intros Hp. unfold first.
  induction rows as [ | r rest IH]; [ reflexivity | ].
  cbn [update_first find].
  destruct (p r) eqn:Hr.
  - cbn [find]. now rewrite Hp, Hr.
  - cbn [find]. now rewrite Hr.
Qed.

(** C3. [approve_attendance] succeeds only on a row that requires approval.
    On such a row it clears [requires_approval], stamps the approver, the
    decision time and the notes, and maps the status [late] to
    [present_late], [remote_unverified] to [remote_approved] and
    [identity_unverified] to [present_approved]; a further approval of the
    same row, like the approval of any row that does not require approval,
    fails with "Attendance does not require approval" and leaves the
    session unchanged. *)
Theorem approve_only_pending_and_once :
  forall (db : DB) (clk : Clock) (attendance_id approver : Z)
         (notes : option string),
    let not_pending : outcome string :=
      Fail {| error := "Attendance does not require approval";
              message := None; error_type := None |} in
    (succeeded (fst (approve_attendance db clk attendance_id approver notes))
       = true ->
     exists a, row db attendance_id = Some a
               /\ att_requires_approval a = true)
    /\ (forall a,
          row db attendance_id = Some a ->
          att_requires_approval a = true ->
          exists a',
            row (snd (approve_attendance db clk attendance_id approver notes))
                attendance_id = Some a'
            /\ fst (approve_attendance db clk attendance_id approver notes)
               = Ok (att_status a')
            /\ att_requires_approval a' = false
            /\ approved_by a' = Some approver
            /\ approved_at a' = Some (utcnow clk)
            /\ approval_notes a' = notes
            /\ (att_status a = "late" -> att_status a' = "present_late")
            /\ (att_status a = "remote_unverified" ->
                att_status a' = "remote_approved")
            /\ (att_status a = "identity_unverified" ->
                att_status a' = "present_approved")
            /\ (forall clk2 approver2 notes2,
                  let db' :=
                    snd (approve_attendance db clk attendance_id approver
                           notes) in
                  approve_attendance db' clk2 attendance_id approver2 notes2
                  = (not_pending, db')))
    /\ (forall a,
          row db attendance_id = Some a ->
          att_requires_approval a = false ->
          approve_attendance db clk attendance_id approver notes
          = (not_pending, db)).
Proof.
  intros db clk attendance_id approver notes not_pending.
  split; [ | split ].
  - unfold approve_attendance, row.
    destruct (first _ (attendances db)) as [a | ]; [ | discriminate ].
    destruct (att_requires_approval a) eqn:Hr; [ | discriminate ].
    intros _. now exists a.
  - intros a Hrow Hreq.
    exists (approved_row approver (utcnow clk) notes a).
    assert (Hrow' :
      row (snd (approve_attendance db clk attendance_id approver notes))
          attendance_id
      = Some (approved_row approver (utcnow clk) notes a)).
    { unfold approve_attendance. unfold row in Hrow. rewrite Hrow, Hreq.
      cbn [negb snd]. unfold row. cbn [attendances].
      rewrite first_update_first by reflexivity.
      now rewrite Hrow. }
    split; [ exact Hrow' | ].
    split.
    { unfold approve_attendance. unfold row in Hrow. now rewrite Hrow, Hreq. }
    split; [ reflexivity | ].
    split; [ reflexivity | ].
    split; [ reflexivity | ].
    split; [ reflexivity | ].
    split; [ intros Hs; cbn; now rewrite Hs | ].
    split; [ intros Hs; cbn; now rewrite Hs | ].
    split; [ intros Hs; cbn; now rewrite Hs | ].
    intros clk2 approver2 notes2 db'.
    unfold approve_attendance at 1. unfold row in Hrow'. fold db' in Hrow'.
    now rewrite Hrow'.
  - intros a Hrow Hreq. unfold approve_attendance.
    unfold row in Hrow. now rewrite Hrow, Hreq.
Qed.

Lemma approve_only_pending_and_once_witness :
  fst (approve_attendance db_pending (clock_at 0 day0 12 0) 1 10 (Some "ok"))
    = Ok "present_late"
  /\ fst (approve_attendance
            (snd (approve_attendance db_pending (clock_at 0 day0 12 0) 1 10
                    (Some "ok")))
            (clock_at 0 day0 12 5) 1 10 (Some "again"))
     = Fail {| error := "Attendance does not require approval";
               message := None; error_type := None |}.
Proof.
  destruct (proj1 (proj2
    (@approve_only_pending_and_once db_pending (clock_at 0 day0 12 0) 1 10
       (Some "ok"))) (pending_row 1 "late") eq_refl eq_refl)
    as (a' & _ & Hok & _ & _ & _ & _ & Hlate & _ & _ & Hagain).
  split.
  - rewrite Hok. f_equal. now apply Hlate.
  - now rewrite (Hagain (clock_at 0 day0 12 5) 10 (Some "again")).
Defined.

(** *** Status precedence *)

(** The row the record creation in force adds carries the status and the
    approval flag of the validation dictionary. *)
Lemma created_row_status (env : Env) (db : DB) (clk : Clock)
  (e : Employee) (w : option WFHRequest) (s : option Shift)
  (photo : option string) (latitude longitude : option R)
  (vd : VerificationData) (val : ValidationData) :
  exists a,
    attendances (snd (_create_attendance_record env db clk e w s photo
                        latitude longitude vd val))
    = (attendances db ++ [a])%list
    /\ att_status a = attendance_status val
    /\ att_requires_approval a = requires_approval val.
Proof.
  eexists. unfold _create_attendance_record. cbv zeta.
  destruct (notifier_error env) as [x | ].
  - destruct (requires_approval val || _); cbn [snd attendances];
      (split; [ reflexivity | split; reflexivity ]).
  - destruct (requires_approval val); destruct (0 <? _)%nat;
      cbn [snd attendances];
      (split; [ reflexivity | split; reflexivity ]).
Qed.




End RecordFacts.

(** ** Great-circle distance: the two forms together *)

Module GeoAgreement.

Import Geo.
Local Open Scope R_scope.








End GeoAgreement.

(** ** Further properties of the stages *)

Module StageFacts.

Import PrimFloat.
Import Py Model AttendanceService Scenario Fixtures MoreFixtures.
Local Open Scope string_scope.
Local Open Scope Z_scope.
Local Set Warnings "-inexact-float".

(** *** Pre-checks *)

Lemma get_employee_shift_name (db : DB) (e : Employee) (s : Shift) :
  _get_employee_shift db e = Some s -> shift_name s = "Morning Shift".
Proof.
  unfold _get_employee_shift, first. intros H.
  apply find_some in H. destruct H as [_ H].
  now apply String.eqb_eq in H.
Qed.

(** What a successful pre-check has established. *)
Lemma pre_checks_ok_inv (db : DB) (clk : Clock) (employee_id : Z)
  (pre : PreChecks) :
  _perform_pre_checks db clk employee_id = Ok pre ->
  exists e u,
    first (fun x => emp_id x =? employee_id) (employees db) = Some e
    /\ emp_user e = Some u /\ is_active u = true
    /\ existing_attendance db clk employee_id = None
    /\ pre = {| employee := e;
                wfh_request := approved_wfh db employee_id (today clk);
                assigned_shift := _get_employee_shift db e |}.
Proof.
  unfold _perform_pre_checks.
  destruct (first _ (employees db)) as [e | ] eqn:He; [ | discriminate ].
  destruct (emp_user e) as [u | ] eqn:Hu; cbn [negb]; [ | discriminate ].
  destruct (is_active u) eqn:Ha; cbn [negb]; [ | discriminate ].
  destruct (existing_attendance db clk employee_id) eqn:Hx; [ discriminate | ].
  intros H. injection H as <-. exists e, u. auto.
Qed.

(** A successful pre-check returns the employee asked for, whose account is
    active and who has no row in today's window; the work-from-home request
    it returns, if any, is an approved request of that employee for the
    local date; the shift it returns, if any, is the one called "Morning
    Shift", whoever the employee is. *)
Theorem pre_checks_success :
  forall (db : DB) (clk : Clock) (employee_id : Z) (pre : PreChecks),
    _perform_pre_checks db clk employee_id = Ok pre ->
    In (employee pre) (employees db)
    /\ emp_id (employee pre) = employee_id
    /\ (exists u, emp_user (employee pre) = Some u /\ is_active u = true)
    /\ existing_attendance db clk employee_id = None
    /\ (forall w, wfh_request pre = Some w ->
          In w (wfh_requests db)
          /\ wfh_employee_id w = employee_id
          /\ request_date w = today clk
          /\ wfh_status w = "approved")
    /\ (forall s, assigned_shift pre = Some s ->
          In s (shifts db) /\ shift_name s = "Morning Shift").
Proof.
  intros db clk employee_id pre Hpre.
  destruct (pre_checks_ok_inv _ _ _ Hpre) as (e & u & He & Hu & Ha & Hx & ->).
  cbn [employee wfh_request assigned_shift].
  unfold first in He. apply find_some in He. destruct He as [Hin Hid].
  apply Z.eqb_eq in Hid.
  split; [ exact Hin | ].
  split; [ exact Hid | ].
  split; [ now exists u | ].
  split; [ exact Hx | ].
  split.
  - intros w Hw. unfold approved_wfh, first in Hw.
    apply find_some in Hw. destruct Hw as [Hwin Hw].
    apply andb_prop in Hw. destruct Hw as [Hw H3].
    apply andb_prop in Hw. destruct Hw as [H1 H2].
    apply Z.eqb_eq in H1. apply Z.eqb_eq in H2. apply String.eqb_eq in H3.
    auto.
  - intros s Hs. split.
    + unfold _get_employee_shift, first in Hs.
      now apply find_some in Hs.
    + exact (get_employee_shift_name _ _ Hs).
Qed.

Lemma pre_checks_success_witness :
  emp_id alice = 1
  /\ existing_attendance db0 (clock_at 0 day0 9 30) 1 = None.
Proof.
  destruct (@pre_checks_success db0 (clock_at 0 day0 9 30) 1
              {| employee := alice; wfh_request := None;
                 assigned_shift := Some morning |} eq_refl)
    as (_ & Hid & _ & Hx & _).
  split; [ exact Hid | exact Hx ].
Defined.

(** The account check comes before the search for today's row: an employee
    without an active account is turned away with [employee_inactive]
    whether or not a row exists, and an unknown id with
    [employee_not_found]. *)
Theorem pre_checks_precedence :
  forall (db : DB) (clk : Clock) (employee_id : Z),
    (first (fun e => emp_id e =? employee_id) (employees db) = None ->
     error_of (_perform_pre_checks db clk employee_id)
       = Some "employee_not_found")
    /\ (forall e,
          first (fun e => emp_id e =? employee_id) (employees db) = Some e ->
          (emp_user e = None
           \/ exists u, emp_user e = Some u /\ is_active u = false) ->
          error_of (_perform_pre_checks db clk employee_id)
            = Some "employee_inactive").
Proof.
  intros db clk employee_id. unfold _perform_pre_checks. split.
  - now intros ->.
  - intros e -> [Hu | (u & Hu & Ha)]; rewrite Hu; [ | rewrite Ha ]; reflexivity.
Qed.

Lemma pre_checks_precedence_witness :
  error_of (_perform_pre_checks db_disabled (clock_at 0 day0 12 0) 1)
  = Some "employee_inactive".
Proof.
  refine (proj2 (@pre_checks_precedence db_disabled (clock_at 0 day0 12 0) 1)
            disabled_alice eq_refl _).
  right. eexists. split; reflexivity.
Defined.

(** *** Position check *)



End StageFacts.

(** ** Further properties of the time-window classification *)

Module WindowFacts.

Import Py Model AttendanceService Scenario Fixtures MoreFixtures.
Local Open Scope string_scope.
Local Open Scope Z_scope.

Lemma late_minutes_nonneg (current expected : Z) :
  0 <= _calculate_late_minutes current expected.
Proof.
  unfold _calculate_late_minutes, MICROS_PER_MINUTE.
  destruct (expected <? current) eqn:H; [ | lia ].
  apply Z.ltb_lt in H. apply Z.div_pos; lia.
Qed.

(** [_calculate_late_minutes] counts the whole minutes by which the current
    time exceeds the expected time: it is never negative, it is 0 up to and
    including the expected time, it is the floor of the difference in
    minutes after it, and it does not decrease as the current time grows. *)
Theorem late_minutes_floor :
  forall current expected : Z,
    0 <= _calculate_late_minutes current expected
    /\ (current <= expected -> _calculate_late_minutes current expected = 0)
    /\ (expected < current ->
        minutes (_calculate_late_minutes current expected)
          <= current - expected
          < minutes (_calculate_late_minutes current expected + 1))
    /\ (forall later, current <= later ->
          _calculate_late_minutes current expected
            <= _calculate_late_minutes later expected).
Proof.
  intros current expected.
  unfold _calculate_late_minutes, minutes, MICROS_PER_MINUTE.
  split; [ | split; [ | split ] ].
  - destruct (expected <? current) eqn:H; [ | lia ].
    apply Z.ltb_lt in H. apply Z.div_pos; lia.
  - intros H. apply Z.ltb_ge in H. now rewrite H.
  - intros H. apply Z.ltb_lt in H. rewrite H.
    pose proof (Z.div_mod (current - expected) 60000000 ltac:(lia)) as Hdm.
    pose proof (Z.mod_pos_bound (current - expected) 60000000 ltac:(lia)) as Hb.
    lia.
  - intros later Hl.
    destruct (expected <? current) eqn:H1; destruct (expected <? later) eqn:H2.
    + apply Z.div_le_mono; lia.
    + apply Z.ltb_lt in H1. apply Z.ltb_ge in H2. lia.
    + apply Z.ltb_lt in H2. apply Z.div_pos; lia.
    + lia.
Qed.

Lemma late_minutes_floor_witness :
  minutes (_calculate_late_minutes (time 11 16 + 59999999) (time 11 0))
    <= time 11 16 + 59999999 - time 11 0
    < minutes (_calculate_late_minutes (time 11 16 + 59999999) (time 11 0) + 1).
Proof.
  apply (proj1 (proj2 (proj2
           (late_minutes_floor (time 11 16 + 59999999) (time 11 0))))).
  vm_compute. reflexivity.
Defined.

(** The classification under an assigned shift, in closed form. *)
Lemma start_of_window_shape :
  forall (d current : Z) (cfg : ShiftConfig),
    start cfg <= end_ cfg ->
    0 <= end_ cfg ->
    0 <= grace cfg ->
    end_ cfg + minutes (grace cfg) < MICROS_PER_DAY ->
    time_window_check d current (Some cfg)
    = if current <=? end_ cfg + minutes (grace cfg)
      then (true, false, "present",
            _calculate_late_minutes current (end_ cfg))
      else (false, true, "late",
            _calculate_late_minutes current (end_ cfg)).
Proof.
  intros d current cfg Hse He Hg Hday.
  assert (Hmg : 0 <= minutes (grace cfg))
    by (unfold minutes, MICROS_PER_MINUTE; lia).
  assert (Hge : time_of (combine d (end_ cfg) + minutes (grace cfg))
                = end_ cfg + minutes (grace cfg)).
  { replace (combine d (end_ cfg) + minutes (grace cfg))
      with (combine d (end_ cfg + minutes (grace cfg)))
      by (unfold combine; lia).
    apply ValidationFacts.time_of_combine. lia. }
  unfold time_window_check. rewrite Hge.
  destruct ((start cfg <=? current) && (current <=? end_ cfg)) eqn:Hmain.
  - apply andb_prop in Hmain. destruct Hmain as [_ H2].
    apply Z.leb_le in H2.
    replace (current <=? end_ cfg + minutes (grace cfg)) with true
      by (symmetry; apply Z.leb_le; lia).
    unfold _calculate_late_minutes.
    replace (end_ cfg <? current) with false
      by (symmetry; apply Z.ltb_ge; lia).
    reflexivity.
  - destruct (current <=? end_ cfg + minutes (grace cfg)); reflexivity.
Qed.

(** For an assigned shift whose grace period ends before midnight, the
    start of the window decides nothing: every check-in up to the end of
    the grace period is accepted, also one before the start, and every
    later one is flagged late; the late minutes count from the end of the
    window. *)
Theorem start_of_window_is_not_enforced :
  forall (d current : Z) (cfg : ShiftConfig),
    start cfg <= end_ cfg ->
    0 <= end_ cfg ->
    0 <= grace cfg ->
    end_ cfg + minutes (grace cfg) < MICROS_PER_DAY ->
    time_window_check d current (Some cfg)
    = (if current <=? end_ cfg + minutes (grace cfg)
       then (true, false, "present",
             _calculate_late_minutes current (end_ cfg))
       else (false, true, "late",
             _calculate_late_minutes current (end_ cfg)))
    /\ (forall start',
          start' <= end_ cfg ->
          time_window_check d current
            (Some {| start := start'; end_ := end_ cfg; grace := grace cfg |})
          = time_window_check d current (Some cfg)).
Proof.
  intros d current cfg Hse He Hg Hday.
  split; [ now apply start_of_window_shape | ].
  intros start' Hs'.
  rewrite (@start_of_window_shape d current cfg) by assumption.
  now rewrite (@start_of_window_shape d current
                 {| start := start'; end_ := end_ cfg; grace := grace cfg |})
    by assumption.
Qed.

Lemma start_of_window_is_not_enforced_witness :
  time_window_check day0 (time 3 0)
    (Some (dict_get SHIFT_WINDOWS "Morning Shift" FALLBACK_WINDOW))
  = (true, false, "present", 0).
Proof.
  rewrite (proj1 (@start_of_window_is_not_enforced day0 (time 3 0)
                    (dict_get SHIFT_WINDOWS "Morning Shift" FALLBACK_WINDOW)
                    ltac:(vm_compute; congruence)
                    ltac:(vm_compute; congruence)
                    ltac:(vm_compute; congruence)
                    ltac:(vm_compute; reflexivity))).
  reflexivity.
Defined.

(** The classification ties its outputs together. *)
Lemma time_window_check_shape (d t : Z) (c : option ShiftConfig) :
  let '(within, approval, status, late) := time_window_check d t c in
  approval = negb within
  /\ status = (if approval then "late" else "present")
  /\ 0 <= late.
Proof.
  pose proof (late_minutes_nonneg t) as Hl.
  unfold time_window_check.
  destruct c as [cfg | ];
    repeat match goal with
           | |- context [if ?b then _ else _] => destruct b
           end;
    repeat split; try reflexivity; try lia; apply Hl.
Qed.

(** Every validation dictionary is consistent: approval is required exactly
    when the check-in is outside the time window, the status is [late]
    exactly then and [present] otherwise, the late minutes are not
    negative, and the work mode is [wfh] exactly when a work-from-home
    request was passed in, in which case the stage cannot fail. *)
Theorem validation_data_consistent :
  forall (clk : Clock) (e : Employee) (s : option Shift)
         (w : option WFHRequest) (latitude longitude : option R),
    (forall v,
        _perform_validation clk e s w latitude longitude = Ok v ->
        requires_approval v = negb (within_time_window v)
        /\ attendance_status v
           = (if requires_approval v then "late" else "present")
        /\ 0 <= late_minutes v
        /\ work_mode v = (match w with Some _ => "wfh" | None => "office" end))
    /\ (w <> None ->
        succeeded (_perform_validation clk e s w latitude longitude) = true).
Proof.
  intros clk e s w latitude longitude.
  unfold _perform_validation. cbv zeta.
  pose proof (time_window_check_shape (today clk) (time_of (now clk))
                (match s with
                 | Some s0 => Some (dict_get SHIFT_WINDOWS (shift_name s0)
                                      FALLBACK_WINDOW)
                 | None => None
                 end)) as Hshape.
  destruct (time_window_check _ _ _) as [[[within approval] status] late].
  destruct Hshape as (Ha & Hs & Hl).
  split.
  - intros v.
    destruct ((_ =? "office")%string && _); [ discriminate | ].
    intros E. injection E as <-. cbn. auto.
  - intros Hw. destruct w as [w0 | ]; [ reflexivity | congruence ].
Qed.

Lemma validation_data_consistent_witness :
  succeeded (_perform_validation (clock_at 0 day0 12 0) alice (Some morning)
               (Some (wfh_on day0)) None None) = true.
Proof.
  apply (proj2 (validation_data_consistent (clock_at 0 day0 12 0) alice
                  (Some morning) (Some (wfh_on day0)) None None)).
  discriminate.
Defined.

(** The grace period and the early check-in need an assigned shift. With
    the same window, 09:00 to 11:00 and 15 minutes of grace, a check-in
    during the grace period or before 09:00 is accepted when it is the
    window of an assigned shift, and is flagged late, for approval, when the
    employee has no assigned shift; the late minutes are the same. *)
Theorem grace_needs_an_assigned_shift :
  forall (d current : Z),
    current < time 9 0 \/ time 11 0 < current <= time 11 15 ->
    time_window_check d current (Some FALLBACK_WINDOW)
    = (true, false, "present", _calculate_late_minutes current (time 11 0))
    /\ time_window_check d current None
       = (false, true, "late", _calculate_late_minutes current (time 11 0)).
Proof.
  intros d current H.
  split.
  - rewrite start_of_window_shape by (vm_compute; congruence).
    replace (current <=? end_ FALLBACK_WINDOW + minutes (grace FALLBACK_WINDOW))
      with true; [ reflexivity | ].
    symmetry. apply Z.leb_le.
    change (end_ FALLBACK_WINDOW + minutes (grace FALLBACK_WINDOW))
      with (time 11 15).
    assert (time 9 0 < time 11 15) by reflexivity. lia.
  - unfold time_window_check. cbv zeta.
    replace ((time 9 0 <=? current) && (current <=? time 11 0)) with false;
      [ reflexivity | ].
    symmetry. apply Bool.andb_false_iff.
    destruct H as [H | H]; [ left; apply Z.leb_gt | right; apply Z.leb_gt ];
      lia.
Qed.

Lemma grace_needs_an_assigned_shift_witness :
  time_window_check day0 (time 11 10) (Some FALLBACK_WINDOW)
    = (true, false, "present", 10)
  /\ time_window_check day0 (time 11 10) None = (false, true, "late", 10).
Proof.
  apply (@grace_needs_an_assigned_shift day0 (time 11 10)).
  right. vm_compute. split; congruence.
Defined.

(** A submission that went through the pre-checks is validated against the
    morning window (08:00 to 11:00, 15 minutes of grace) or, when the
    session holds no shift of that name, against the default window: the
    evening and night windows are never used. *)
Theorem validation_after_pre_checks_uses_morning_window :
  forall (db : DB) (clk : Clock) (employee_id : Z) (pre : PreChecks)
         (latitude longitude : option R) (v : ValidationData),
    _perform_pre_checks db clk employee_id = Ok pre ->
    _perform_validation clk (employee pre) (assigned_shift pre)
      (wfh_request pre) latitude longitude = Ok v ->
    shift_window v = None
    \/ shift_window v
       = Some {| start := time 8 0; end_ := time 11 0; grace := 15 |}.
Proof.
  intros db clk employee_id pre latitude longitude v Hpre.
  destruct (StageFacts.pre_checks_ok_inv _ _ _ Hpre)
    as (e & u & _ & _ & _ & _ & ->).
  cbn [employee wfh_request assigned_shift].
  unfold _perform_validation. cbv zeta.
  destruct (time_window_check _ _ _) as [[[within approval] status] late].
  destruct ((_ =? "office")%string && _); [ discriminate | ].
  intros E. injection E as <-. cbn [shift_window].
  destruct (_get_employee_shift db e) as [s | ] eqn:Hs; [ right | now left ].
  rewrite (StageFacts.get_employee_shift_name _ _ Hs). reflexivity.
Qed.

Lemma validation_after_pre_checks_uses_morning_window_witness :
  shift_window morning_office_validation = None
  \/ shift_window morning_office_validation
     = Some {| start := time 8 0; end_ := time 11 0; grace := 15 |}.
Proof.
  apply (@validation_after_pre_checks_uses_morning_window db0
           (clock_at 0 day0 9 30) 1
           {| employee := alice; wfh_request := None;
              assigned_shift := Some morning |}
           (Some OFFICE_LAT) (Some OFFICE_LON)).
  - reflexivity.
  - unfold _perform_validation. cbv zeta.
    rewrite !VerificationFacts.truthy_nonzero
      by (unfold OFFICE_LAT, OFFICE_LON; lra).
    reflexivity.
Defined.

End WindowFacts.

(** ** Further properties of record creation and approval *)

Module RecordMore.

Import PrimFloat.
Import Py Model AttendanceService Scenario Fixtures MoreFixtures.
Local Open Scope string_scope.
Local Open Scope Z_scope.
Local Set Warnings "-inexact-float".

(** The key of a new row is above every key in the table. *)
Lemma next_attendance_id_fresh (db : DB) (a : Attendance) :
  In a (attendances db) -> att_id a < next_attendance_id db.
Proof.
  unfold next_attendance_id.
  induction (attendances db) as [ | b rest IH]; [ contradiction | ].
  intros [-> | Hin]; cbn [map fold_right]; [ lia | ].
  specialize (IH Hin). lia.
Qed.

Lemma first_app_last {A} (p : A -> bool) (l : list A) (a : A) :
  (forall b, In b l -> p b = false) -> p a = true ->
  first p (l ++ [a]) = Some a.
Proof.
  unfold first. induction l as [ | b rest IH]; intros Hl Ha; cbn.
  - now rewrite Ha.
  - rewrite (Hl b (or_introl eq_refl)). apply IH; [ | exact Ha ].
    intros c Hc. apply Hl. now right.
Qed.

Lemma created_row_fields (env : Env) (db : DB) (clk : Clock) (e : Employee)
  (w : option WFHRequest) (s : option Shift) (photo : option string)
  (latitude longitude : option R)
  (vd : VerificationData) (val : ValidationData) :
  let db' := snd (_create_attendance_record env db clk e w s photo latitude
                    longitude vd val) in
  exists a,
    attendances db' = (attendances db ++ [a])%list
    /\ employees db' = employees db
    /\ wfh_requests db' = wfh_requests db
    /\ shifts db' = shifts db
    /\ att_id a = next_attendance_id db
    /\ att_employee_id a = emp_id e
    /\ att_date a = utcnow clk
    /\ check_in a = Some (utcnow clk)
    /\ (approved_by a, approved_at a, approval_notes a) = (None, None, None)
    /\ approval_status a
       = (if att_requires_approval a then "pending" else "auto_approved")
    /\ att_requires_approval a = requires_approval val
    /\ (is_fraud_suspected a = true <-> fraud_indicators vd <> [])
    /\ (flagged_reason a <> None <-> fraud_indicators vd <> []).
Proof.
  cbv zeta. eexists.
  split.
  { unfold _create_attendance_record. cbv zeta.
    destruct (notifier_error env) as [x | ].
    - destruct (requires_approval val || _); reflexivity.
    - destruct (requires_approval val); destruct (0 <? _)%nat; reflexivity. }
  assert (Hframe :
    let db' := snd (_create_attendance_record env db clk e w s photo latitude
                      longitude vd val) in
    employees db' = employees db
    /\ wfh_requests db' = wfh_requests db
    /\ shifts db' = shifts db).
  { unfold _create_attendance_record. cbv zeta.
    destruct (notifier_error env) as [x | ].
    - destruct (requires_approval val || _); repeat split.
    - destruct (requires_approval val); destruct (0 <? _)%nat; repeat split. }
  destruct Hframe as (H1 & H2 & H3).
  split; [ exact H1 | ]. split; [ exact H2 | ]. split; [ exact H3 | ].
  cbn [att_id att_employee_id att_date check_in approved_by approved_at
       approval_notes approval_status att_requires_approval
       is_fraud_suspected flagged_reason].
  repeat (split; [ reflexivity | ]).
  split; [ now destruct (requires_approval val) | ].
  split; [ reflexivity | ].
  destruct (fraud_indicators vd) as [ | i rest]; cbn; split;
    split; intros H; try discriminate; try congruence; try reflexivity.
Qed.

Lemma created_is_found (env : Env) (db : DB) (clk : Clock) (e : Employee)
  (w : option WFHRequest) (s : option Shift) (photo : option string)
  (latitude longitude : option R)
  (vd : VerificationData) (val : ValidationData) (a : Attendance) :
  attendances (snd (_create_attendance_record env db clk e w s photo latitude
                      longitude vd val))
  = (attendances db ++ [a])%list ->
  att_id a = next_attendance_id db ->
  created env db clk e w s photo latitude longitude vd val = Some a.
Proof.
  intros Hrows Hid. unfold created, row. rewrite Hrows.
  apply first_app_last.
  - intros b Hb. apply Z.eqb_neq.
    pose proof (next_attendance_id_fresh db b Hb). lia.
  - rewrite Hid. apply Z.eqb_refl.
Qed.

(** [_create_attendance_record] always commits exactly one new row and
    touches no other table; the row is stamped with the UTC instant as date
    and check-in, carries no approval stamp, is [pending] exactly when it
    requires approval and [auto_approved] otherwise, and is marked as
    suspected fraud exactly when there are fraud indicators, which is
    exactly when it has a flagged reason. *)
Theorem created_row_is_consistent :
  forall (env : Env) (db : DB) (clk : Clock) (e : Employee)
         (w : option WFHRequest) (s : option Shift) (photo : option string)
         (latitude longitude : option R)
         (vd : VerificationData) (val : ValidationData),
    let db' := snd (_create_attendance_record env db clk e w s photo latitude
                      longitude vd val) in
    exists a,
      attendances db' = (attendances db ++ [a])%list
      /\ created env db clk e w s photo latitude longitude vd val = Some a
      /\ employees db' = employees db
      /\ wfh_requests db' = wfh_requests db
      /\ shifts db' = shifts db
      /\ att_id a = next_attendance_id db
      /\ att_employee_id a = emp_id e
      /\ att_date a = utcnow clk
      /\ check_in a = Some (utcnow clk)
      /\ (approved_by a, approved_at a, approval_notes a) = (None, None, None)
      /\ approval_status a
         = (if att_requires_approval a then "pending" else "auto_approved")
      /\ att_requires_approval a = requires_approval val
      /\ (is_fraud_suspected a = true <-> fraud_indicators vd <> [])
      /\ (flagged_reason a <> None <-> fraud_indicators vd <> []).
Proof.
  intros env db clk e w s photo latitude longitude vd val db'.
  destruct (created_row_fields env db clk e w s photo latitude longitude
              vd val) as (a & Hrows & Hfields).
  fold db' in Hrows, Hfields.
  exists a.
  split; [ exact Hrows | ].
  split; [ | exact Hfields ].
  apply created_is_found; [ exact Hrows | ].
  now destruct Hfields as (_ & _ & _ & Hid & _).
Qed.



(** *** Approval *)

Lemma update_first_keys {A K} (p : A -> bool) (f : A -> A) (key : A -> K)
  (rows : list A) :
  (forall r, key (f r) = key r) ->
  map key (update_first p f rows) = map key rows.
Proof.
  intros Hk. induction rows as [ | r rest IH]; [ reflexivity | ].
  cbn [update_first]. destruct (p r); cbn [map].
  - now rewrite Hk.
  - now rewrite IH.
Qed.

Lemma update_first_others {A} (p : A -> bool) (f : A -> A) (rows : list A)
  (a : A) :
  In a rows -> p a = false -> In a (update_first p f rows).
Proof.
  induction rows as [ | r rest IH]; [ contradiction | ].
  intros [-> | Hin] Hp; cbn [update_first].
  - rewrite Hp. now left.
  - destruct (p r); right; auto.
Qed.

(** [approve_attendance] rewrites at most the row it is given: the keys of
    the table, in order, and every row with another key stay as they were,
    and so do the other tables; for a key that is not in the table it
    reports "Attendance record not found" and changes nothing. The column
    [approval_status] is not among those it writes. *)
Theorem approve_touches_one_row :
  forall (db : DB) (clk : Clock) (attendance_id approver : Z)
         (notes : option string),
    let db' := snd (approve_attendance db clk attendance_id approver notes) in
    map att_id (attendances db') = map att_id (attendances db)
    /\ map approval_status (attendances db')
       = map approval_status (attendances db)
    /\ (forall a, In a (attendances db) -> att_id a <> attendance_id ->
                  In a (attendances db'))
    /\ employees db' = employees db
    /\ wfh_requests db' = wfh_requests db
    /\ shifts db' = shifts db
    /\ (row db attendance_id = None ->
        approve_attendance db clk attendance_id approver notes
        = (Fail {| error := "Attendance record not found";
                   message := None; error_type := None |}, db)).
Proof.
  intros db clk attendance_id approver notes db'. subst db'.
  unfold approve_attendance, row.
  destruct (first _ (attendances db)) as [a | ] eqn:Hrow.
  - destruct (att_requires_approval a); cbn [negb snd attendances employees
                                              wfh_requests shifts].
    + split; [ now apply update_first_keys | ].
      split; [ now apply update_first_keys | ].
      split.
      { intros b Hb Hne. apply update_first_others; [ exact Hb | ].
        now apply Z.eqb_neq. }
      repeat split. discriminate.
    + repeat split; auto. discriminate.
  - cbn [snd]. repeat split; auto.
Qed.

Lemma approve_touches_one_row_witness :
  approve_attendance db_pending (clock_at 0 day0 12 0) 5 10 None
  = (Fail {| error := "Attendance record not found";
             message := None; error_type := None |}, db_pending).
Proof.
  apply (approve_touches_one_row db_pending (clock_at 0 day0 12 0) 5 10 None).
  reflexivity.
Defined.

(** Creation followed by approval. The row a creation commits can be
    approved exactly when the validation flagged it: then the approval
    clears [requires_approval] and turns a [late] status into
    [present_late], while the row's [approval_status] stays [pending];
    a row created as [auto_approved] is refused with "Attendance does not
    require approval". *)
Theorem approval_of_created_row :
  forall (env : Env) (db : DB) (clk clk2 : Clock) (e : Employee)
         (w : option WFHRequest) (s : option Shift) (photo : option string)
         (latitude longitude : option R)
         (vd : VerificationData) (val : ValidationData)
         (approver : Z) (notes : option string),
    let db1 := snd (_create_attendance_record env db clk e w s photo latitude
                      longitude vd val) in
    let key := next_attendance_id db in
    let r := approve_attendance db1 clk2 key approver notes in
    (requires_approval val = false ->
     r = (Fail {| error := "Attendance does not require approval";
                  message := None; error_type := None |}, db1))
    /\ (requires_approval val = true ->
        exists a',
          row (snd r) key = Some a'
          /\ succeeded (fst r) = true
          /\ att_requires_approval a' = false
          /\ approval_status a' = "pending"
          /\ approved_by a' = Some approver
          /\ approved_at a' = Some (utcnow clk2)
          /\ (attendance_status val = "late" ->
              att_status a' = "present_late")).
Proof.
  intros env db clk clk2 e w s photo latitude longitude vd val approver notes
    db1 key r.
  destruct (created_row_fields env db clk e w s photo latitude longitude
              vd val)
    as (a & Hrows & _ & _ & _ & Hid & _ & _ & _ & _ & Hstat & Hreq & _).
  pose proof (created_is_found _ _ _ _ _ _ _ _ _ _ _ _ Hrows Hid) as Hrow.
  unfold created in Hrow. fold db1 key in Hrow.
  pose proof (RecordFacts.created_row_status env db clk e w s photo latitude
                longitude vd val) as (a0 & Hrows0 & Hst0 & _).
  assert (a0 = a).
  { rewrite Hrows in Hrows0. apply app_inv_head in Hrows0. congruence. }
  subst a0.
  split.
  - intros Hv. subst r. unfold approve_attendance.
    unfold row in Hrow. rewrite Hrow, Hreq, Hv. reflexivity.
  - intros Hv.
    exists (approved_row approver (utcnow clk2) notes a).
    assert (Hr : r = (Ok (att_status (approved_row approver (utcnow clk2)
                                        notes a)),
                      snd r)).
    { subst r. unfold approve_attendance.
      unfold row in Hrow. rewrite Hrow, Hreq, Hv. reflexivity. }
    split.
    { subst r. unfold approve_attendance. unfold row in Hrow.
      rewrite Hrow, Hreq, Hv. cbn [negb snd]. unfold row. cbn [attendances].
      rewrite RecordFacts.first_update_first by reflexivity.
      now rewrite Hrow. }
    split; [ now rewrite Hr | ].
    split; [ reflexivity | ].
    split.
    { cbn [approved_row approval_status]. rewrite Hstat, Hreq, Hv.
      reflexivity. }
    split; [ reflexivity | ].
    split; [ reflexivity | ].
    intros Hlate. cbn [approved_row att_status]. rewrite Hst0, Hlate.
    reflexivity.
Qed.

Lemma approval_of_created_row_witness :
  exists a',
    row (snd (approve_attendance
                (snd (_create_attendance_record env0 db0
                        (clock_at 0 day0 11 40) alice None (Some morning)
                        (Some "photo") None None plain_verification
                        (validation_with "office" "late" true)))
                (clock_at 0 day0 12 0) (next_attendance_id db0) 10 None))
        (next_attendance_id db0) = Some a'
    /\ att_requires_approval a' = false
    /\ approval_status a' = "pending".
Proof.
  destruct (proj2 (approval_of_created_row env0 db0 (clock_at 0 day0 11 40)
                     (clock_at 0 day0 12 0) alice None (Some morning)
                     (Some "photo") None None plain_verification
                     (validation_with "office" "late" true) 10 None)
              eq_refl)
    as (a' & Hrow & _ & Hreq & Hst & _).
  exists a'. auto.
Defined.

(** *** The idempotency gate, where it holds *)

Lemma already_marked_inv (db : DB) (clk : Clock) (employee_id : Z) :
  error_of (_perform_pre_checks db clk employee_id) = Some "already_marked" ->
  _perform_pre_checks db clk employee_id
  = failed "already_marked" "Attendance already marked for today".
Proof.
  unfold _perform_pre_checks.
  destruct (first _ (employees db)) as [e | ]; [ | discriminate ].
  destruct (negb _); [ discriminate | ].
  destruct (existing_attendance db clk employee_id);
    [ reflexivity | discriminate ].
Qed.

(** If the pre-checks let a submission through and its row is committed,
    then a later submission of the same employee is turned away with
    [already_marked], and adds nothing, provided the row's UTC date is the
    local date of the later submission and the row was not stamped in the
    last microsecond of the day. *)
Theorem second_submission_is_refused_inside_window :
  forall (env env2 : Env) (db : DB) (clk clk2 : Clock) (employee_id : Z)
         (photo photo2 : option string)
         (latitude longitude latitude2 longitude2 : option R)
         (vd vd2 : VerificationData) (val val2 : ValidationData),
    succeeded (_perform_pre_checks db clk employee_id) = true ->
    date_of (utcnow clk) = today clk2 ->
    time_of (utcnow clk) <> time_max ->
    let db1 := snd (gated_record_creation env db clk employee_id photo
                      latitude longitude vd val) in
    gated_record_creation env2 db1 clk2 employee_id photo2 latitude2
      longitude2 vd2 val2
    = (Fail {| error := "already_marked";
               message := Some "Attendance already marked for today";
               error_type := None |}, db1).
Proof.
  intros env env2 db clk clk2 employee_id photo photo2 latitude longitude
    latitude2 longitude2 vd vd2 val val2 Hok Hday Hlast db1.
  destruct (_perform_pre_checks db clk employee_id) as [pre | | ] eqn:Hpre;
    try discriminate.
  destruct (StageFacts.pre_checks_ok_inv _ _ _ Hpre)
    as (e & u & He & Hu & Ha & _ & ->).
  assert (Hid : emp_id e = employee_id).
  { unfold first in He. apply find_some in He. destruct He as [_ He].
    now apply Z.eqb_eq in He. }
  assert (Hdb1 : db1 = snd (_create_attendance_record env db clk e
                              (approved_wfh db employee_id (today clk))
                              (_get_employee_shift db e) photo latitude
                              longitude vd val)).
  { subst db1. unfold gated_record_creation. now rewrite Hpre. }
  destruct (created_row_fields env db clk e
              (approved_wfh db employee_id (today clk))
              (_get_employee_shift db e) photo latitude longitude vd val)
    as (a & Hrows & Hemp & _ & _ & _ & Haid & Hdate & _).
  rewrite <- Hdb1 in Hrows, Hemp. clearbody db1.
  assert (Hgate : error_of (_perform_pre_checks db1 clk2 (emp_id e))
                  = Some "already_marked").
  { eapply RecordFacts.gate_holds_inside_window with (u := u) (a := a).
    - rewrite Hemp, Hid. exact He.
    - exact Hu.
    - exact Ha.
    - rewrite Hrows. apply in_or_app. right. now left.
    - exact Haid.
    - now rewrite Hdate.
    - now rewrite Hdate. }
  rewrite Hid in Hgate.
  unfold gated_record_creation.
  now rewrite (already_marked_inv _ _ _ Hgate).
Qed.

Lemma second_submission_is_refused_inside_window_witness :
  error_of
    (fst (gated_record_creation env0
            (snd (gated_record_creation env0 (db_wfh day0)
                    (clock_at 0 day0 9 30) 1 (Some "photo") None None
                    plain_verification (validation_with "wfh" "present" false)))
            (clock_at 0 day0 9 31) 1 (Some "photo") None None
            plain_verification (validation_with "wfh" "present" false)))
  = Some "already_marked".
Proof.
  rewrite (@second_submission_is_refused_inside_window env0 env0 (db_wfh day0)
             (clock_at 0 day0 9 30) (clock_at 0 day0 9 31) 1 (Some "photo")
             (Some "photo") None None None None plain_verification
             plain_verification (validation_with "wfh" "present" false)
             (validation_with "wfh" "present" false));
    [ reflexivity | reflexivity | reflexivity | vm_compute; congruence ].
Defined.

End RecordMore.

(** ** Further properties of the pipeline and of the fraud heuristics *)

Module PipelineMore.

Import PrimFloat.
Import Py Model AttendanceService Scenario Fixtures MoreFixtures.
Local Open Scope string_scope.
Local Open Scope Z_scope.
Local Set Warnings "-inexact-float".



(** [_detect_fraud_indicators] reports at most four indicators, one per
    check and in the order of the checks, each with the severity fixed for
    its type; the only high-severity indicator is the one for rapid
    attempts, present exactly when a row of the employee is dated within
    the last five minutes; and the weekend indicator is present exactly on
    a Saturday or Sunday for which the employee has no approved
    work-from-home request. *)
Theorem fraud_indicator_list :
  forall (env : Env) (db : DB) (clk : Clock) (e : Employee) (photo : string)
         (latitude longitude : option R) (vd : VerificationData),
    let l := _detect_fraud_indicators env db clk e photo latitude longitude
               vd in
    (List.length l <= 4)%nat
    /\ (forall i, In i l ->
          In (ind_type i, severity i)
             [ ("low_face_confidence", "medium"); ("location_anomaly", "low");
               ("rapid_attempts", "high"); ("weekend_attendance", "medium") ])
    /\ ((exists i, In i l /\ severity i = "high")
        <-> 0 < recent_attempts db clk (emp_id e))
    /\ ((exists i, In i l /\ ind_type i = "weekend_attendance")
        <-> (5 <= weekday (today clk)
             /\ approved_wfh db (emp_id e) (today clk) = None))
    /\ ((exists i, In i l /\ ind_type i = "low_face_confidence")
        <-> ltb (face_match_confidence vd) 70 = true).
Proof.
  intros env db clk e photo latitude longitude vd l. subst l.
  unfold _detect_fraud_indicators.
  set (conf := ltb (face_match_confidence vd) 70).
  set (anomaly := location_anomaly db clk (emp_id e) latitude longitude).
  set (wfh := approved_wfh db (emp_id e) (today clk)).
  assert (Hr : (0 <? recent_attempts db clk (emp_id e)) = true
               <-> 0 < recent_attempts db clk (emp_id e))
    by apply Z.ltb_lt.
  assert (Hw : (5 <=? weekday (today clk)) = true
               <-> 5 <= weekday (today clk))
    by apply Z.leb_le.
  destruct (0 <? recent_attempts db clk (emp_id e));
    destruct (5 <=? weekday (today clk));
    destruct conf; destruct anomaly; destruct wfh;
    cbn [app List.length].
  all: (split; [ lia | ]).
  all: (split; [ intros i Hi; cbn in Hi; cbn; intuition (subst; cbn; auto) | ]).
  all: (split; [ split;
              [ intros (i & Hi & Hs);
                first [ now apply Hr
                      | cbn in Hi;
                        intuition (subst; cbn in Hs; discriminate) ]
              | intros H;
                first [ apply Hr in H; discriminate
                      | exists {| ind_type := "rapid_attempts";
                                  severity := "high";
                                  details := "Multiple attendance attempts within 5 minutes" |};
                        split; [ cbn; intuition | reflexivity ] ] ] | ]).
  all: (split; [ split;
              [ intros (i & Hi & Hs);
                first [ split; [ now apply Hw | reflexivity ]
                      | cbn in Hi;
                        intuition (subst; cbn in Hs; discriminate) ]
              | intros [H1 H2];
                first [ discriminate
                      | apply Hw in H1; discriminate
                      | exists {| ind_type := "weekend_attendance";
                                  severity := "medium";
                                  details := "Attendance on weekend without special approval" |};
                        split; [ cbn; intuition | reflexivity ] ] ] | ]).
  all: (split;
     [ intros (i & Hi & Hs);
       first [ reflexivity
             | cbn in Hi; intuition (subst; cbn in Hs; discriminate) ]
     | intros H;
       first [ discriminate
             | eexists; split; [ cbn; left; reflexivity | reflexivity ] ] ]).
Qed.

End PipelineMore.

(** ** Further properties of the face utilities *)

Module FaceMore.

Import PrimFloat.
Import FaceRecognition FaceUtils Fixtures FaceFixtures.
Local Open Scope string_scope.
Local Open Scope float_scope.
Local Set Warnings "-inexact-float".

Lemma ltb_leb (x y : float) : ltb x y = true -> leb x y = true.
Proof.
  rewrite FloatAxioms.ltb_spec, FloatAxioms.leb_spec.
  unfold SpecFloat.SFltb, SpecFloat.SFleb.
  destruct (SpecFloat.SFcompare _ _) as [[ | | ] | ]; intros H;
    try discriminate; reflexivity.
Qed.

(** The distance-based confidence lies between 0 and 100 for every
    distance the library may return, a NaN or an infinity included; on a
    NaN it is 100, while the distance test fails. *)
Theorem distance_confidence_range :
  forall d : float,
    leb 0 (distance_confidence d) = true
    /\ leb (distance_confidence d) 100 = true
    /\ distance_confidence nan = 100
    /\ (forall tol, leb nan tol = false).
Proof.
  intros d. unfold distance_confidence, py_max, py_min.
  split; [ | split; [ | split ] ].
  - destruct (ltb ((1 - d) * 100) 100) eqn:H1.
    + destruct (ltb 0 ((1 - d) * 100)) eqn:H2;
        [ now apply ltb_leb | reflexivity ].
    + reflexivity.
  - destruct (ltb ((1 - d) * 100) 100) eqn:H1.
    + destruct (ltb 0 ((1 - d) * 100)) eqn:H2;
        [ now apply ltb_leb | reflexivity ].
    + reflexivity.
  - reflexivity.
  - intros tol. rewrite FloatAxioms.leb_spec. reflexivity.
Qed.

(** The quality score of a measured image is 100 less the penalties of its
    issues and is never clamped: it lies between 10 and 100; the image is
    acceptable exactly when the score is at least 60; it has no issue
    exactly when the score is 100; and with three issues or more it is
    never acceptable. When the measurement itself fails, the image is
    acceptable with a score of 50. *)
Theorem image_quality_score :
  forall m : ImageMetrics,
    let q := detect_image_quality (inl m) in
    (10 <= quality_score q <= 100)%Z
    /\ acceptable q = (60 <=? quality_score q)%Z
    /\ (issues q = [] <-> quality_score q = 100%Z)
    /\ (List.length (issues q) <= 4)%nat
    /\ ((3 <= List.length (issues q))%nat -> acceptable q = false)
    /\ (forall e,
          acceptable (detect_image_quality (inr e)) = true
          /\ quality_score (detect_image_quality (inr e)) = 50%Z).
Proof.
  intros m q. subst q. unfold detect_image_quality.
  destruct (ltb (brightness m) 50); destruct (ltb 200 (brightness m));
    destruct (ltb (contrast m) 30); destruct (ltb (blur_score m) 100);
    destruct (200 <=? Z.min (height m) (width m))%Z;
    cbn [quality_score issues acceptable app List.length];
    (split; [ split; vm_compute; congruence | ]);
    (split; [ reflexivity | ]);
    (split; [ split; intros H; first [ discriminate | reflexivity ] | ]);
    (split; [ lia | ]);
    (split; [ intros H; first [ reflexivity | exfalso; lia ] | ]);
    intros e; split; reflexivity.
Qed.

Lemma image_quality_score_witness :
  acceptable (detect_image_quality (inl poor_metrics)) = false.
Proof.
  apply (proj1 (proj2 (proj2 (proj2 (proj2
           (image_quality_score poor_metrics)))))).
  vm_compute. repeat constructor.
Defined.

(** The liveness analysis and the comparison together. An image the
    analysis judges not live carries at least two security warnings, so it
    can match only if its discounted confidence is not under 85; an
    analysis that fails with an exception yields a single warning and no
    discount, so by itself it never forces a mismatch. *)
Theorem liveness_and_comparison :
  forall (round round' : float -> Z -> float) (lib : bool) (s : Scan)
         (tol : float) (m : LivenessMeasures + string),
    liveness_analysis s = detect_liveness_indicators round m ->
    (is_likely_live (liveness_analysis s) = false ->
     (2 <= List.length (liveness_warnings s))%nat
     /\ (match_ (compare_faces round' lib s tol) = true ->
         ltb (adjusted_confidence s) 85 = false))
    /\ (forall e, m = inr e ->
          too_many_warnings s = false
          /\ ltb (overall_score (liveness_analysis s)) 50 = false)
    /\ (List.length (liveness_warnings s) <= 3)%nat.
Proof.
  intros round round' lib s tol m Hl.
  split; [ | split ].
  - intros Hlive.
    assert (Hn : (2 <= List.length (liveness_warnings s))%nat).
    { unfold liveness_warnings. rewrite Hlive.
      rewrite Hl in Hlive |- *. destruct m as [m | e]; [ | discriminate ].
      cbn in Hlive |- *.
      destruct (ltb _ 30); [ cbn; lia | discriminate ]. }
    split; [ exact Hn | ].
    rewrite FaceFacts.compare_faces_match. unfold too_many_warnings.
    apply Nat.leb_le in Hn. rewrite Hn. cbn [andb].
    destruct (ltb (adjusted_confidence s) 85); [ | reflexivity ].
    rewrite Bool.andb_false_r. discriminate.
  - intros e ->. unfold too_many_warnings, liveness_warnings.
    rewrite Hl. cbn. split; reflexivity.
  - unfold liveness_warnings. rewrite Hl.
    destruct m as [m | e]; cbn; [ | lia ].
    destruct (negb (ltb _ 30)); destruct (ltb _ 30);
      destruct (ltb _ 20); cbn; lia.
Qed.

Lemma liveness_and_comparison_witness :
  (2 <= List.length (liveness_warnings flat_scan))%nat
  /\ match_ (compare_faces (fun x _ => x) true flat_scan 0.6) = false.
Proof.
  destruct (proj1 (@liveness_and_comparison (fun x _ => x) (fun x _ => x)
                     true flat_scan 0.6 (inl flat_measures) eq_refl)
              eq_refl) as [H2 Hm].
  split; [ exact H2 | ].
  destruct (match_ (compare_faces (fun x _ => x) true flat_scan 0.6));
    [ | reflexivity ].
  specialize (Hm eq_refl). vm_compute in Hm. discriminate.
Defined.

(** No dictionary of [verify_face] has a key ["verified"]. *)
Lemma verify_face_verified_default (round : float -> Z -> float) (lib : bool)
  (load : Z -> option string) (scan : string -> string -> Scan)
  (employee_id : Z) (photo : string) (tol : float) :
  get (verify_face round lib load scan employee_id photo tol) "verified"
    (IBool false) = IBool false.
Proof.
  unfold verify_face.
  destruct (negb lib); [ reflexivity | ].
  destruct (negb (Py.truthy_str (load employee_id))); [ reflexivity | ].
  destruct (match_ _); reflexivity.
Qed.

(** [verify_face] reports success exactly when the library is installed, a
    profile image is on file and [compare_faces] matches; every dictionary
    it builds has the keys ["success"], ["message"] and ["confidence"] and
    none has a key ["verified"]; without the library or without a profile
    image the confidence is 0. *)
Theorem verify_face_dictionary :
  forall (round : float -> Z -> float) (lib : bool)
         (load : Z -> option string) (scan : string -> string -> Scan)
         (employee_id : Z) (photo : string) (tol : float),
    let d := verify_face round lib load scan employee_id photo tol in
    (get d "success" (IBool false) = IBool true
     <-> lib = true
         /\ Py.truthy_str (load employee_id) = true
         /\ match_ (compare_faces round lib
                      (scan (match load employee_id with
                             | Some p => p
                             | None => ""
                             end) photo) tol) = true)
    /\ has_key d "success" && has_key d "message" && has_key d "confidence"
       = true
    /\ has_key d "verified" = false
    /\ get d "verified" (IBool false) = IBool false
    /\ (lib = false \/ Py.truthy_str (load employee_id) = false ->
        get d "confidence" (INum 1) = INum 0).
Proof.
  intros round lib load scan employee_id photo tol d. subst d.
  unfold verify_face.
  destruct lib; cbn [negb].
  - destruct (Py.truthy_str (load employee_id)); cbn [negb].
    + destruct (match_ _); cbn; repeat split; try reflexivity;
        try tauto; try discriminate; intuition discriminate.
    + cbn; repeat split; try reflexivity; try tauto; intuition discriminate.
  - cbn; repeat split; try reflexivity; try tauto; intuition discriminate.
Qed.

End FaceMore.

(** ** The earlier definitions, end to end *)

Module SupersededFacts.

Import PrimFloat.
Import Py Model FaceUtils Fixtures MoreFixtures.
Local Open Scope string_scope.
Local Set Warnings "-inexact-float".

(** The earlier verification reads the key ["verified"], which
    [verify_face] never sets: the face is never reported as verified. *)
Lemma earlier_face_never_verified (env : Env) (e : Employee)
  (photo : option string) (latitude longitude : option R) (use_face : bool) :
  Superseded.face_verified
    (SupersededStages._perform_verification env e photo latitude longitude
       use_face) = false.
Proof.
  unfold SupersededStages._perform_verification.
  destruct (use_face && truthy_str photo);
    [ destruct (face_module_loaded env) | ].
  - rewrite FaceMore.verify_face_verified_default.
    destruct latitude, longitude; try reflexivity.
    destruct (truthy_float _ && truthy_float _); reflexivity.
  - destruct latitude, longitude; try reflexivity.
    destruct (truthy_float _ && truthy_float _); reflexivity.
  - destruct latitude, longitude; try reflexivity.
    destruct (truthy_float _ && truthy_float _); reflexivity.
Qed.

Lemma earlier_location_verified (env : Env) (e : Employee)
  (photo : option string) (latitude longitude : option R) (use_face : bool) :
  Superseded.location_verified
    (SupersededStages._perform_verification env e photo latitude longitude
       use_face)
  = match latitude, longitude with
    | Some x, Some y =>
        truthy_float latitude && truthy_float longitude
        && SupersededStages.Rleb
             (Geo._calculate_distance x y OFFICE_LAT OFFICE_LON)
             (IZR MAX_DISTANCE)
    | _, _ => false
    end.
Proof.
  unfold SupersededStages._perform_verification.
  destruct (if use_face && truthy_str photo then _ else _) as [fv fc].
  destruct latitude as [x | ], longitude as [y | ]; try reflexivity.
  destruct (truthy_float (Some x) && truthy_float (Some y)); reflexivity.
Qed.

(** The earlier verification never reports the face as verified (it reads
    a key [verify_face] does not set); it leaves the confidence at 0 unless
    face recognition is requested with a photo and the utilities are
    imported; and it reports the location as verified exactly for a
    position with two nonzero coordinates at most 100 m from the office. *)
Theorem earlier_verification_outcome :
  forall (env : Env) (e : Employee) (photo : option string)
         (latitude longitude : option R) (use_face : bool),
    let vd := SupersededStages._perform_verification env e photo latitude
                longitude use_face in
    Superseded.face_verified vd = false
    /\ (use_face && truthy_str photo && face_module_loaded env = false ->
        Superseded.face_confidence vd = 0%float)
    /\ (Superseded.location_verified vd = true
        <-> exists x y,
              latitude = Some x /\ longitude = Some y
              /\ x <> 0%R /\ y <> 0%R
              /\ (Geo._calculate_distance x y OFFICE_LAT OFFICE_LON
                  <= 100)%R).
Proof.
  intros env e photo latitude longitude use_face vd. subst vd.
  split; [ apply earlier_face_never_verified | ].
  split.
  - intros H. unfold SupersededStages._perform_verification.
    destruct (use_face && truthy_str photo); cbn [andb] in H.
    + rewrite H.
      destruct latitude, longitude; try reflexivity.
      destruct (truthy_float _ && truthy_float _); reflexivity.
    + destruct latitude, longitude; try reflexivity.
      destruct (truthy_float _ && truthy_float _); reflexivity.
  - rewrite earlier_location_verified.
    destruct latitude as [x | ], longitude as [y | ];
      try (split; [ discriminate | intros (a & b & H1 & H2 & _); congruence ]).
    unfold truthy_float, SupersededStages.Rleb, MAX_DISTANCE.
    destruct (Req_dec_T x 0) as [Hx | Hx];
      destruct (Req_dec_T y 0) as [Hy | Hy];
      destruct (Rle_dec _ (IZR 100)) as [Hd | Hd]; cbn [andb];
      split; try discriminate; try reflexivity;
      try (intros (a & b & H1 & H2 & Ha & Hb & Hab);
           injection H1 as <-; injection H2 as <-; contradiction).
    intros _. exists x, y. auto.
Qed.

Lemma earlier_verification_outcome_witness :
  Superseded.face_confidence
    (SupersededStages._perform_verification env0 alice (Some "photo")
       (Some OFFICE_LAT) (Some OFFICE_LON) false) = 0%float.
Proof.
  apply (proj1 (proj2 (earlier_verification_outcome env0 alice (Some "photo")
                         (Some OFFICE_LAT) (Some OFFICE_LON) false))).
  reflexivity.
Defined.

(** The earlier stages composed. The row's status is decided by the
    reported confidence first: under 0.7 it is [identity_unverified]; else
    an unverified required location gives [remote_unverified]; else a
    check-in outside the window gives [late]; else [present]; approval is
    required for every status but [present]. In particular a submission
    without face recognition is always [identity_unverified]. *)
Theorem earlier_pipeline_status :
  forall (env : Env) (clk : Clock) (e : Employee) (s : option Shift)
         (w : option WFHRequest) (photo : option string)
         (latitude longitude : option R) (use_face : bool),
    let vd := SupersededStages._perform_verification env e photo latitude
                longitude use_face in
    let val := SupersededStages._perform_validation clk e s w latitude
                 longitude in
    let r := Superseded._create_attendance_record clk e s w vd val in
    Superseded.status r
    = (if ltb (Superseded.face_confidence vd) 0.7 then "identity_unverified"
       else if Superseded.location_required val
               && negb (Superseded.location_verified vd)
            then "remote_unverified"
       else if negb (Superseded.time_window_valid val) then "late"
       else "present")
    /\ Superseded.requires_approval r
       = negb (Superseded.status r =? "present")
    /\ (use_face = false ->
        Superseded.status r = "identity_unverified"
        /\ Superseded.requires_approval r = true).
Proof.
  intros env clk e s w photo latitude longitude use_face vd val r.
  assert (Hfv : Superseded.face_verified vd = false)
    by apply earlier_face_never_verified.
  assert (Hst : Superseded.status r
                = (if ltb (Superseded.face_confidence vd) 0.7
                   then "identity_unverified"
                   else if Superseded.location_required val
                           && negb (Superseded.location_verified vd)
                        then "remote_unverified"
                   else if negb (Superseded.time_window_valid val) then "late"
                   else "present")
                /\ Superseded.requires_approval r
                   = negb (Superseded.status r =? "present")).
  { subst r. unfold Superseded._create_attendance_record,
      Superseded.determine_status.
    rewrite Hfv. cbn [negb andb].
    destruct (negb (Superseded.time_window_valid val));
      destruct (Superseded.location_required val
                && negb (Superseded.location_verified vd));
      destruct (ltb (Superseded.face_confidence vd) 0.7);
      split; reflexivity. }
  destruct Hst as [Hs Hr].
  split; [ exact Hs | ]. split; [ exact Hr | ].
  intros ->.
  assert (Hc : Superseded.face_confidence vd = 0%float).
  { subst vd. unfold SupersededStages._perform_verification.
    cbn [andb].
    destruct latitude, longitude; try reflexivity.
    destruct (truthy_float _ && truthy_float _); reflexivity. }
  rewrite Hr, Hs, Hc. split; reflexivity.
Qed.

Lemma earlier_pipeline_status_witness :
  Superseded.status
    (Superseded._create_attendance_record (clock_at 0 day0 9 30) alice
       (Some morning) None
       (SupersededStages._perform_verification env0 alice (Some "photo")
          (Some OFFICE_LAT) (Some OFFICE_LON) false)
       (SupersededStages._perform_validation (clock_at 0 day0 9 30) alice
          (Some morning) None (Some OFFICE_LAT) (Some OFFICE_LON)))
  = "identity_unverified".
Proof.
  exact (proj1 (proj2 (proj2
    (earlier_pipeline_status env0 (clock_at 0 day0 9 30) alice (Some morning)
       None (Some "photo") (Some OFFICE_LAT) (Some OFFICE_LON) false))
    eq_refl)).
Defined.

(** In the earlier validation the start of the window is enforced: for an
    assigned shift whose grace period ends before midnight the time window
    is valid exactly from the start of the shift to the end of the grace
    period, and the grace period is used exactly after the end of the
    shift; a shift whose name is not in the table is held to the morning
    window. *)
Theorem earlier_window_enforces_start :
  forall (clk : Clock) (e : Employee) (s : Shift) (w : option WFHRequest)
         (latitude longitude : option R),
    let cfg := dict_get SHIFT_WINDOWS (shift_name s)
                 SupersededStages.MORNING_WINDOW in
    let current := time_of (now clk) in
    let val := SupersededStages._perform_validation clk e (Some s) w
                 latitude longitude in
    (start cfg <= end_ cfg)%Z ->
    (0 <= end_ cfg)%Z -> (0 <= grace cfg)%Z ->
    (end_ cfg + minutes (grace cfg) < MICROS_PER_DAY)%Z ->
    Superseded.time_window_valid val
    = ((start cfg <=? current)
       && (current <=? end_ cfg + minutes (grace cfg)))%Z
    /\ Superseded.grace_period_used val
       = ((end_ cfg <? current)
          && (current <=? end_ cfg + minutes (grace cfg)))%Z
    /\ (Superseded.location_required val = true <-> w = None).
Proof.
  intros clk e s w latitude longitude cfg current val Hse He Hg Hday.
  assert (Hmg : (0 <= minutes (grace cfg))%Z)
    by (unfold minutes, MICROS_PER_MINUTE; lia).
  assert (Hge : time_of (combine (today clk) (end_ cfg)
                         + minutes (grace cfg))%Z
                = (end_ cfg + minutes (grace cfg))%Z).
  { replace (combine (today clk) (end_ cfg) + minutes (grace cfg))%Z
      with (combine (today clk) (end_ cfg + minutes (grace cfg)))
      by (unfold combine; lia).
    apply ValidationFacts.time_of_combine. lia. }
  subst val. unfold SupersededStages._perform_validation. cbv zeta.
  fold cfg. fold current. rewrite Hge.
  destruct (start cfg <=? current)%Z eqn:H1;
    destruct (current <=? end_ cfg)%Z eqn:H2;
    destruct (end_ cfg <? current)%Z eqn:H3;
    destruct (current <=? end_ cfg + minutes (grace cfg))%Z eqn:H4;
    cbn [andb orb Superseded.time_window_valid
         Superseded.grace_period_used Superseded.location_required];
    try (apply Z.leb_le in H1); try (apply Z.leb_gt in H1);
    try (apply Z.leb_le in H2); try (apply Z.leb_gt in H2);
    try (apply Z.ltb_lt in H3); try (apply Z.ltb_ge in H3);
    try (apply Z.leb_le in H4); try (apply Z.leb_gt in H4);
    try (exfalso; lia);
    (split; [ reflexivity | split; [ reflexivity | ] ]);
    destruct w; split; intros; congruence.
Qed.

Lemma earlier_window_enforces_start_witness :
  Superseded.time_window_valid
    (SupersededStages._perform_validation (clock_at 0 day0 3 0) alice
       (Some morning) None None None) = false.
Proof.
  rewrite (proj1 (@earlier_window_enforces_start (clock_at 0 day0 3 0) alice
                    morning None None None
                    ltac:(vm_compute; congruence)
                    ltac:(vm_compute; congruence)
                    ltac:(vm_compute; congruence)
                    ltac:(vm_compute; reflexivity))).
  reflexivity.
Defined.

End SupersededFacts.

(** ** The payroll's view of attendance, and the order of the verification *)

Module CallerFacts.

Import PrimFloat.
Import Py Model AttendanceService Scenario Fixtures MoreFixtures.
Local Open Scope string_scope.
Local Set Warnings "-inexact-float".

(** [PayrollService._get_attendance_data] calls a method the attendance
    service does not have: the call raises [AttributeError] inside the
    [try], so the function returns its default figures (22 working days out
    of 22, no leave, no overtime, 100 percent) whatever the attendance rows
    of the month are. *)
Theorem payroll_attendance_data_is_default :
  forall counted : outcome Payroll.AttendanceData,
    Payroll.getattr "get_working_days_in_month"
    = Raise (AttributeError
               "'AttendanceService' object has no attribute 'get_working_days_in_month'")
    /\ Payroll._get_attendance_data counted = Payroll.DEFAULT_ATTENDANCE_DATA
    /\ Payroll.total_working_days (Payroll._get_attendance_data counted)
       = Payroll.actual_working_days (Payroll._get_attendance_data counted)
    /\ Forall (fun name => Payroll.getattr name = Ok tt)
         [ "approve_attendance"; "mark_attendance_comprehensive";
           "_calculate_late_minutes" ].
Proof.
  intros counted.
  split; [ reflexivity | ].
  split; [ reflexivity | ].
  split; [ reflexivity | ].
  repeat constructor.
Qed.

(** The verification stage reports the first check that fails, in the order
    photo, face, position, security: a missing photo is reported whatever
    else holds; a failure of the face check is reported whatever the
    position; with an approved work-from-home request for the local date
    the position is not checked, so no location error is reported; and in
    office mode a failure of the position check is reported before the
    security service is asked. *)
Theorem verification_reports_first_failure :
  forall (env : Env) (db : DB) (clk : Clock) (e : Employee)
         (photo : string) (latitude longitude : option R),
    (forall p use_face,
        truthy_str p = false ->
        error_of (_perform_verification env db clk e p latitude longitude
                    use_face) = Some "photo_required")
    /\ (truthy_str (Some photo) = true ->
        forall f,
          _verify_face_recognition env e photo = Fail f ->
          _perform_verification env db clk e (Some photo) latitude longitude
            true = Fail f)
    /\ (truthy_str (Some photo) = true ->
        approved_wfh db (emp_id e) (today clk) <> None ->
        forall use_face,
          error_of (_perform_verification env db clk e (Some photo) latitude
                      longitude use_face) <> Some "location_required"
          /\ error_of (_perform_verification env db clk e (Some photo)
                         latitude longitude use_face)
             <> Some "location_too_far")
    /\ (truthy_str (Some photo) = true ->
        approved_wfh db (emp_id e) (today clk) = None ->
        forall f,
          _validate_gps_location latitude longitude = Fail f ->
          _perform_verification env db clk e (Some photo) latitude longitude
            false = Fail f).
Proof.
  intros env db clk e photo latitude longitude.
  split; [ | split; [ | split ] ].
  - intros p use_face Hp. unfold _perform_verification. now rewrite Hp.
  - intros Hp f Hf. unfold _perform_verification.
    rewrite Hp. cbn [negb]. now rewrite Hf.
  - intros Hp Hw use_face. unfold _perform_verification.
    rewrite Hp. cbn [negb].
    destruct (approved_wfh db (emp_id e) (today clk)) as [w | ];
      [ | congruence ].
    assert (Hface :
      match (if use_face then _verify_face_recognition env e photo
             else Ok 0%float) with
      | Fail f => error f <> "location_required"
                  /\ error f <> "location_too_far"
      | _ => True
      end).
    { destruct use_face; [ | exact I ].
      unfold _verify_face_recognition.
      destruct (negb (face_module_loaded env));
        [ cbn; split; discriminate | ].
      destruct (negb (truthy_str _)); [ cbn; split; discriminate | ].
      destruct (negb (FaceRecognition.match_ _)); cbn;
        [ split; discriminate | exact I ]. }
    destruct (if use_face then _ else _) as [c | f | x].
    + cbv zeta. cbn [String.eqb Ascii.eqb Bool.eqb].
      destruct (negb (security_passed _));
        [ cbn; split; discriminate | ].
      rewrite VerificationFacts.fraud_indicators_unbound.
      cbn. split; discriminate.
    + cbn. destruct Hface as [H1 H2]. split; congruence.
    + cbn. split; discriminate.
  - intros Hp Hw f Hf. unfold _perform_verification.
    rewrite Hp. cbn [negb]. rewrite Hw. cbv zeta.
    cbn [String.eqb Ascii.eqb Bool.eqb]. now rewrite Hf.
Qed.

Lemma verification_reports_first_failure_witness :
  error_of (_perform_verification env0 db0 (clock_at 0 day0 9 30) alice None
              (Some OFFICE_LAT) (Some OFFICE_LON) true)
  = Some "photo_required".
Proof.
  apply (proj1 (verification_reports_first_failure env0 db0
                  (clock_at 0 day0 9 30) alice "photo" (Some OFFICE_LAT)
                  (Some OFFICE_LON))).
  reflexivity.
Defined.

End CallerFacts.
